(** * Portfolio-management server: storage layer and route handlers

    A shallow embedding of the storage layer (class [DatabaseStorage]) and of
    [routes.ts] ([registerRoutes], [seedPlans]).

    - JavaScript values that reach a handler from a request body are the
      inductive [JS.value]; member access on [undefined]/[null] throws.
    - Asynchronous handler code is a computation in the monad [M]: it threads
      the [World] (database tables, the payment processor's objects, the
      clock) and may throw; a [try { } catch { }] block is [try_catch].
      A thrown exception keeps the writes made before it, as in the source,
      where nothing runs inside a transaction.
    - The relational tables are lists of rows.  A query without an
      [orderBy] answers in an order the database chooses; the list order
      stands for that choice, and what is stated about the rows such a
      query answers with does not depend on it. *)

From Stdlib Require Import String Ascii List ZArith Bool Lia DecimalString.
From Stdlib Require Import Sorting.Sorted Sorting.Permutation.
Import ListNotations.
Local Open Scope string_scope.
Set Warnings "-register-all".

(** ** JavaScript values *)

Module JS.

(** What [req.body] may hold: nothing at all ([undefined], when no body
    parser ran) or a parsed JSON document.  Numbers are only carried around
    by the handlers, never inspected; integers suffice here. *)
Inductive value : Type :=
| Undefined
| Null
| Boolean (b : bool)
| Num (n : Z)
| Str (s : string)
| Arr (elements : list value)
| Obj (fields : list (string * value)).

(** Own property lookup in an object literal. *)
Fixpoint own (k : string) (fields : list (string * value)) : option value :=
  match fields with
  | [] => None
  | (k', v) :: rest => if String.eqb k k' then Some v else own k rest
  end.

(** [v.k].  [None] stands for the [TypeError] thrown when [v] is
    [undefined] or [null].  A property that is absent reads as
    [undefined]; the handlers only read the names [type], [data] and
    [object], which no prototype defines. *)
Definition member (v : value) (k : string) : option value :=
  match v with
  | Undefined | Null => None
  | Obj fields =>
      match own k fields with
      | Some x => Some x
      | None => Some Undefined
      end
  | _ => Some Undefined
  end.

(** [a === s] for a string literal [s]. *)
Definition strict_eq_string (a : value) (s : string) : bool :=
  match a with
  | Str t => String.eqb t s
  | _ => false
  end.

(** Does the conversion to a string inside a template literal throw?
    A parsed object converts to [[object Object]] unless it carries an own
    property [toString]: that property is not callable, the inherited
    [valueOf] returns the object itself, and [ToPrimitive] ends in a
    [TypeError].  An array joins the conversions of its elements. *)
Fixpoint toString_throws (v : value) : bool :=
  match v with
  | Obj fields =>
      match own "toString" fields with
      | Some _ => true
      | None => false
      end
  | Arr elements =>
      existsb
        (fun e => match e with
                  | Undefined | Null => false
                  | _ => toString_throws e
                  end)
        elements
  | _ => false
  end.

(** Truthiness of a nullable string: [null], [undefined] and the empty
    string are falsy. *)
Definition truthy (s : option string) : bool :=
  match s with
  | Some t => negb (String.eqb t EmptyString)
  | None => false
  end.

(** [a || b] on nullable strings with a string default. *)
Definition or_else (a : option string) (b : string) : string :=
  match a with
  | Some t => if String.eqb t EmptyString then b else t
  | None => b
  end.

Definition is_space (c : ascii) : bool :=
  let n := nat_of_ascii c in
  (Nat.eqb n 32 || (Nat.leb 9 n && Nat.leb n 13))%bool.

(** Strings are sequences of bytes, a character outside ASCII being its
    UTF-8 encoding.  The white space and line terminators of the language
    beyond ASCII: U+00A0 in two bytes; U+1680, U+2000 to U+200A, U+2028,
    U+2029, U+202F, U+205F, U+3000 and U+FEFF in three. *)
Definition is_space2 (a b : ascii) : bool :=
  (Nat.eqb (nat_of_ascii a) 194 && Nat.eqb (nat_of_ascii b) 160)%bool.

Definition is_space3 (a b c : ascii) : bool :=
  let x := nat_of_ascii a in
  let y := nat_of_ascii b in
  let z := nat_of_ascii c in
  ((Nat.eqb x 225 && Nat.eqb y 154 && Nat.eqb z 128)
   || (Nat.eqb x 226 && Nat.eqb y 128
       && ((Nat.leb 128 z && Nat.leb z 138) || Nat.eqb z 168 || Nat.eqb z 169
           || Nat.eqb z 175))
   || (Nat.eqb x 226 && Nat.eqb y 129 && Nat.eqb z 159)
   || (Nat.eqb x 227 && Nat.eqb y 128 && Nat.eqb z 128)
   || (Nat.eqb x 239 && Nat.eqb y 187 && Nat.eqb z 191))%bool.

Fixpoint trim_start (s : string) : string :=
  match s with
  | EmptyString => EmptyString
  | String a r1 =>
      if is_space a then trim_start r1
      else
        match r1 with
        | EmptyString => s
        | String b r2 =>
            if is_space2 a b then trim_start r2
            else
              match r2 with
              | EmptyString => s
              | String c r3 => if is_space3 a b c then trim_start r3 else s
              end
        end
  end.

(** The same on a reversed string, where the bytes of a character come
    last byte first. *)
Fixpoint trim_start_reversed (s : string) : string :=
  match s with
  | EmptyString => EmptyString
  | String a r1 =>
      if is_space a then trim_start_reversed r1
      else
        match r1 with
        | EmptyString => s
        | String b r2 =>
            if is_space2 b a then trim_start_reversed r2
            else
              match r2 with
              | EmptyString => s
              | String c r3 => if is_space3 c b a then trim_start_reversed r3 else s
              end
        end
  end.

Fixpoint rev_string (acc s : string) : string :=
  match s with
  | String c rest => rev_string (String c acc) rest
  | EmptyString => acc
  end.

(** [s.trim()]: white space and line terminators removed at both ends. *)
Definition trim (s : string) : string :=
  rev_string EmptyString
    (trim_start_reversed (rev_string EmptyString (trim_start s))).

End JS.

(** ** Rows of the relational schema

    The table declarations live in [@shared/schema]; the columns below are
    the ones the storage layer and the handlers name. *)

Module Schema.

Record User : Type := mkUser {
  user_id : string;
  user_email : option string;
  user_firstName : option string;
  user_lastName : option string;
  user_stripeCustomerId : option string;
  user_stripeSubscriptionId : option string;
  user_currentPlan : option string;
  user_updatedAt : Z
}.

(** The patch accepted by [updateUser]; an absent field is left alone. *)
Record UpdateUser : Type := mkUpdateUser {
  set_firstName : option (option string);
  set_lastName : option (option string);
  set_currentPlan : option (option string)
}.

Record Plan : Type := mkPlan {
  plan_id : string;
  plan_name : string;
  plan_price : string;
  plan_features : string;
  plan_portfolioLimit : option Z;
  plan_rebalancingFrequency : string;
  plan_managementFee : string;
  plan_hasAdvancedAnalytics : bool;
  plan_hasTaxOptimization : bool;
  plan_hasDedicatedAdvisor : bool;
  plan_isPopular : bool
}.

Record InsertPortfolio : Type := mkInsertPortfolio {
  ins_userId : string;
  ins_totalValue : string;
  ins_totalReturn : string;
  ins_monthlyDeposit : string;
  ins_activeInvestments : Z
}.

Record Portfolio : Type := mkPortfolio {
  pf_id : string;
  pf_userId : string;
  pf_totalValue : string;
  pf_totalReturn : string;
  pf_monthlyDeposit : string;
  pf_activeInvestments : Z
}.

Record PortfolioHistory : Type := mkPortfolioHistory {
  ph_id : string;
  ph_portfolioId : string;
  ph_value : string;
  ph_date : Z
}.

(** A payment row: the columns the code and the data model name, and
    whatever else the table declares in [pay_columns]. *)
Record Payment : Type := mkPayment {
  pay_id : string;
  pay_userId : string;
  pay_amount : string;
  pay_status : string;
  pay_createdAt : Z;
  pay_columns : list (string * string)
}.

Record DB : Type := mkDB {
  users : list User;
  plans : list Plan;
  portfolios : list Portfolio;
  portfolioHistory : list PortfolioHistory;
  payments : list Payment;
  (** the sequence behind the generated primary keys *)
  id_seq : nat
}.

End Schema.
Import Schema.

(** ** The payment processor

    The processor is an external service reached through its SDK.  Its state
    is the set of objects it holds; [retrieve] finds an object by its
    identifier and fails when there is none, [create] adds one under a fresh
    identifier. *)

Module Processor.

Record Customer : Type := mkCustomer {
  cus_id : string;
  cus_email : string;
  cus_name : string;
  cus_metadata : list (string * string)
}.

Record PaymentIntent : Type := mkPaymentIntent {
  pi_id : string;
  client_secret : option string
}.

Record Invoice : Type := mkInvoice {
  inv_id : string;
  payment_intent : option PaymentIntent
}.

Record Subscription : Type := mkSubscription {
  sub_id : string;
  sub_customer : string;
  sub_product : string;
  sub_unit_amount : Z;
  sub_status : string;
  latest_invoice : option string
}.

Record State : Type := mkState {
  customers : list Customer;
  subscriptions : list Subscription;
  invoices : list Invoice;
  serial : nat
}.

End Processor.

(** ** The world a handler runs in, and the handler monad *)

Record World : Type := mkWorld {
  db : DB;
  stripe : Processor.State;
  clock : Z
}.

Inductive Error : Type :=
| TypeError (msg : string)
| StripeError (msg : string).

Definition message (e : Error) : string :=
  match e with
  | TypeError m => m
  | StripeError m => m
  end.

Inductive Outcome (A : Type) : Type :=
| Ok (a : A)
| Throw (e : Error).
Arguments Ok {A} a.
Arguments Throw {A} e.

Definition M (A : Type) : Type := World -> Outcome A * World.

Definition ret {A} (a : A) : M A := fun w => (Ok a, w).

Definition throw {A} (e : Error) : M A := fun w => (Throw e, w).

Definition bind {A B} (m : M A) (k : A -> M B) : M B :=
  fun w =>
    match m w with
    | (Ok a, w') => k a w'
    | (Throw e, w') => (Throw e, w')
    end.

Definition try_catch {A} (m : M A) (handler : Error -> M A) : M A :=
  fun w =>
    match m w with
    | (Ok a, w') => (Ok a, w')
    | (Throw e, w') => handler e w'
    end.

Declare Scope handler_scope.
Delimit Scope handler_scope with handler.
Notation "x <- c ;; k" := (bind c (fun x => k))
  (at level 61, c at next level, right associativity) : handler_scope.
Notation "c ;;; k" := (bind c (fun _ => k))
  (at level 61, right associativity) : handler_scope.
Local Open Scope handler_scope.

(** [for (const x of l) await f(x)] *)
Fixpoint for_each {A} (l : list A) (f : A -> M unit) : M unit :=
  match l with
  | [] => ret tt
  | x :: rest => f x ;;; for_each rest f
  end.

(** [new Date()]: reads the clock, which then moves on. *)
Definition new_Date : M Z :=
  fun w => (Ok (clock w), mkWorld (db w) (stripe w) (clock w + 1)).

Definition with_db (w : World) (d : DB) : World :=
  mkWorld d (stripe w) (clock w).

Definition with_stripe (w : World) (s : Processor.State) : World :=
  mkWorld (db w) s (clock w).

(** ** The storage layer: class [DatabaseStorage] *)

Module Storage.

Definition set_users (d : DB) (rows : list User) : DB :=
  mkDB rows (plans d) (portfolios d) (portfolioHistory d) (payments d) (id_seq d).

Definition set_payments (d : DB) (rows : list Payment) : DB :=
  mkDB (users d) (plans d) (portfolios d) (portfolioHistory d) rows (id_seq d).

(** The key the database generates for a new row. *)
Definition gen_id (n : nat) : string :=
  "id_" ++ NilEmpty.string_of_uint (Nat.to_uint n).

Definition has_id (id : string) (u : User) : bool := String.eqb (user_id u) id.

(** [const [user] = await db.select().from(users).where(eq(users.id, id))] *)
Definition getUser (id : string) : M (option User) :=
  fun w => (Ok (hd_error (filter (has_id id) (users (db w)))), w).

Definition patch {A} (p : option A) (old : A) : A :=
  match p with
  | Some v => v
  | None => old
  end.

Definition apply_UpdateUser (userData : UpdateUser) (now : Z) (u : User) : User :=
  mkUser (user_id u) (user_email u)
         (patch (set_firstName userData) (user_firstName u))
         (patch (set_lastName userData) (user_lastName u))
         (user_stripeCustomerId u) (user_stripeSubscriptionId u)
         (patch (set_currentPlan userData) (user_currentPlan u))
         now.

(** [update(users).set(f).where(eq(users.id, id)).returning()], first row *)
Definition update_users (id : string) (f : User -> User) : M (option User) :=
  fun w =>
    let rows := map (fun u => if has_id id u then f u else u) (users (db w)) in
    (Ok (hd_error (filter (has_id id) rows)), with_db w (set_users (db w) rows)).

Definition updateUser (id : string) (userData : UpdateUser) : M (option User) :=
  now <- new_Date ;;
  update_users id (apply_UpdateUser userData now).

Definition updateUserStripeInfo (id stripeCustomerId stripeSubscriptionId : string)
  : M (option User) :=
  now <- new_Date ;;
  update_users id
    (fun u => mkUser (user_id u) (user_email u) (user_firstName u) (user_lastName u)
                     (Some stripeCustomerId) (Some stripeSubscriptionId)
                     (user_currentPlan u) now).

Definition getPlans : M (list Plan) :=
  fun w => (Ok (plans (db w)), w).

Definition getPlan (id : string) : M (option Plan) :=
  fun w => (Ok (hd_error (filter (fun p => String.eqb (plan_id p) id) (plans (db w)))), w).

Definition getUserPortfolio (userId : string) : M (option Portfolio) :=
  fun w =>
    (Ok (hd_error (filter (fun p => String.eqb (pf_userId p) userId) (portfolios (db w)))), w).

Definition createPortfolio (portfolio : InsertPortfolio) : M Portfolio :=
  fun w =>
    let d := db w in
    let newPortfolio :=
      mkPortfolio (gen_id (id_seq d)) (ins_userId portfolio) (ins_totalValue portfolio)
                  (ins_totalReturn portfolio) (ins_monthlyDeposit portfolio)
                  (ins_activeInvestments portfolio) in
    (Ok newPortfolio,
     with_db w (mkDB (users d) (plans d) (portfolios d ++ [newPortfolio])
                     (portfolioHistory d) (payments d) (S (id_seq d)))).

(** [orderBy(desc(portfolioHistory.date))]: newest first. *)
Fixpoint insert_desc (h : PortfolioHistory) (l : list PortfolioHistory)
  : list PortfolioHistory :=
  match l with
  | [] => [h]
  | x :: rest =>
      if (ph_date x <=? ph_date h)%Z then h :: l else x :: insert_desc h rest
  end.

Definition order_desc (l : list PortfolioHistory) : list PortfolioHistory :=
  fold_right insert_desc [] l.

Definition getPortfolioHistory (portfolioId : string) (limit : nat)
  : M (list PortfolioHistory) :=
  fun w =>
    (Ok (firstn limit
           (order_desc
              (filter (fun h => String.eqb (ph_portfolioId h) portfolioId)
                      (portfolioHistory (db w))))), w).

Definition addPortfolioHistory (portfolioId value : string) : M PortfolioHistory :=
  now <- new_Date ;;
  fun w =>
    let d := db w in
    let history := mkPortfolioHistory (gen_id (id_seq d)) portfolioId value now in
    (Ok history,
     with_db w (mkDB (users d) (plans d) (portfolios d)
                     (portfolioHistory d ++ [history]) (payments d) (S (id_seq d)))).

(** No [orderBy]: the order of the answer is the database's choice. *)
Definition getPaymentsByUser (userId : string) : M (list Payment) :=
  fun w => (Ok (filter (fun p => String.eqb (pay_userId p) userId) (payments (db w))), w).

(** [.set({ status })]: the row with only its status column replaced *)
Definition set_status (status : string) (p : Payment) : Payment :=
  mkPayment (pay_id p) (pay_userId p) (pay_amount p) status (pay_createdAt p)
            (pay_columns p).

Definition updatePaymentStatus (id status : string) : M (option Payment) :=
  fun w =>
    let hit := fun p => String.eqb (pay_id p) id in
    let rows := map (fun p => if hit p then set_status status p else p) (payments (db w)) in
    (Ok (hd_error (filter hit rows)), with_db w (set_payments (db w) rows)).

End Storage.

(** ** Calls to the processor's SDK *)

Module Stripe.
Import Processor.

Definition tag (prefix : string) (n : nat) : string :=
  prefix ++ NilEmpty.string_of_uint (Nat.to_uint n).

(** [stripe.customers.create({ email, name, metadata })] *)
Definition customers_create (email name : string) (metadata : list (string * string))
  : M Customer :=
  fun w =>
    let s := stripe w in
    let customer := mkCustomer (tag "cus_" (serial s)) email name metadata in
    (Ok customer,
     with_stripe w (mkState (customers s ++ [customer]) (subscriptions s) (invoices s)
                            (S (serial s)))).

(** [stripe.subscriptions.retrieve(id)] *)
Definition subscriptions_retrieve (id : string) : M Subscription :=
  fun w =>
    match find (fun s => String.eqb (sub_id s) id) (subscriptions (stripe w)) with
    | Some s => (Ok s, w)
    | None => (Throw (StripeError ("No such subscription: " ++ id)), w)
    end.

(** [stripe.invoices.retrieve(id, { expand: ['payment_intent'] })]; the
    identifier is the subscription's [latest_invoice], which may be null. *)
Definition invoices_retrieve (id : option string) : M Invoice :=
  fun w =>
    match id with
    | None => (Throw (StripeError "Invalid invoice identifier"), w)
    | Some i =>
        match find (fun v => String.eqb (inv_id v) i) (invoices (stripe w)) with
        | Some v => (Ok v, w)
        | None => (Throw (StripeError ("No such invoice: " ++ i)), w)
        end
    end.

(** [stripe.subscriptions.create] with one monthly price,
    [payment_behavior: 'default_incomplete'] and the latest invoice
    expanded in the answer.  [unit_amount] is [None] when the computed
    amount is not a number.  A first invoice of amount zero carries no
    payment intent. *)
Definition subscriptions_create (customer product : string) (unit_amount : option Z)
  : M (Subscription * option Invoice) :=
  fun w =>
    let s := stripe w in
    match unit_amount with
    | None => (Throw (StripeError "Invalid integer: unit_amount"), w)
    | Some amount =>
        if (amount <? 0)%Z then (Throw (StripeError "Invalid non-negative integer"), w)
        else if negb (existsb (fun c => String.eqb (cus_id c) customer) (customers s))
        then (Throw (StripeError ("No such customer: " ++ customer)), w)
        else
          let n := serial s in
          let intent :=
            if (amount =? 0)%Z then None
            else Some (mkPaymentIntent (tag "pi_" n) (Some (tag "pi_" n ++ "_secret"))) in
          let invoice := mkInvoice (tag "in_" n) intent in
          let subscription :=
            mkSubscription (tag "sub_" n) customer product amount
                           (if (amount =? 0)%Z then "active" else "incomplete")
                           (Some (tag "in_" n)) in
          (Ok (subscription, Some invoice),
           with_stripe w (mkState (customers s) (subscriptions s ++ [subscription])
                                  (invoices s ++ [invoice]) (S n)))
    end.

End Stripe.

(** ** The route handlers of [registerRoutes], and [seedPlans] *)

Module Routes.
Import Processor.

(** What a handler sends back with [res.json]. *)
Inductive Body : Type :=
| Message (text : string)
| SubscriptionSecret (subscriptionId : string) (clientSecret : option string)
| Received
| PortfolioView (portfolio : Portfolio) (history : list PortfolioHistory).

Record Response : Type := mkResponse {
  res_status : nat;
  res_body : Body
}.

(** [res.json(b)] *)
Definition json (b : Body) : Response := mkResponse 200 b.

(** [res.status(code).json(b)] *)
Definition status_json (code : nat) (b : Body) : Response := mkResponse code b.

(** [try { body } catch (error) { console.error(..); on_error }] around a
    whole handler: the request always gets an answer. *)
Definition handle (body : M Response) (on_error : Error -> Response)
  : World -> Response * World :=
  fun w =>
    match body w with
    | (Ok r, w') => (r, w')
    | (Throw e, w') => (on_error e, w')
    end.

(** *** GET /api/portfolio *)

Definition dates : list string :=
  ["2024-01-01"; "2024-02-01"; "2024-03-01"; "2024-04-01"; "2024-05-01";
   "2024-06-01"; "2024-07-01"; "2024-08-01"; "2024-09-01"; "2024-10-01"].

Definition values : list string :=
  ["100000"; "102500"; "98000"; "105000"; "108500";
   "112000"; "118500"; "121000"; "119500"; "124567"].

Definition default_portfolio (userId : string) : InsertPortfolio :=
  mkInsertPortfolio userId "124567.00" "18.4000" "2500.00" 12.

Definition get_portfolio (userId : string) : World -> Response * World :=
  handle
    (found <- Storage.getUserPortfolio userId ;;
     portfolio <-
       match found with
       | Some portfolio => ret portfolio
       | None =>
           portfolio <- Storage.createPortfolio (default_portfolio userId) ;;
           for_each (seq 0 (length dates))
             (fun i =>
                Storage.addPortfolioHistory (pf_id portfolio) (nth i values EmptyString) ;;;
                ret tt) ;;;
           ret portfolio
       end ;;
     history <- Storage.getPortfolioHistory (pf_id portfolio) 10 ;;
     ret (json (PortfolioView portfolio history)))
    (fun _ => status_json 500 (Message "Failed to fetch portfolio")).

(** *** POST /api/create-subscription *)

(** The request body, [{ planId }]: a string when present. *)
Record SubscriptionBody : Type := mkSubscriptionBody {
  planId : option string
}.

(** The value of a nullable string when it is truthy. *)
Definition if_truthy (s : option string) : option string :=
  if JS.truthy s then s else None.

Definition customer_name (user : User) (email : string) : string :=
  let name :=
    JS.trim (JS.or_else (user_firstName user) EmptyString ++ " "
             ++ JS.or_else (user_lastName user) EmptyString) in
  if String.eqb name EmptyString then email else name.

Section CreateSubscription.

(** [Math.round(parseFloat(price) * 100)]: floating-point arithmetic,
    left abstract; [None] when the result is not a number. *)
Variable unit_amount_of : string -> option Z.

Definition create_subscription (userId : string) (body : SubscriptionBody)
  : World -> Response * World :=
  handle
    (match if_truthy (planId body) with
     | None => ret (status_json 400 (Message "Plan ID is required"))
     | Some planId =>
         user <- Storage.getUser userId ;;
         plan <- Storage.getPlan planId ;;
         match user, plan with
         | None, _ => ret (status_json 404 (Message "User not found"))
         | Some _, None => ret (status_json 404 (Message "Plan not found"))
         | Some user, Some plan =>
             match if_truthy (user_stripeSubscriptionId user) with
             | Some stripeSubscriptionId =>
                 subscription <- Stripe.subscriptions_retrieve stripeSubscriptionId ;;
                 invoice <- Stripe.invoices_retrieve (latest_invoice subscription) ;;
                 ret (json (SubscriptionSecret
                              (sub_id subscription)
                              (match payment_intent invoice with
                               | Some intent => client_secret intent
                               | None => None
                               end)))
             | None =>
                 match if_truthy (user_email user) with
                 | None => ret (status_json 400 (Message "No user email on file"))
                 | Some email =>
                     customer <- Stripe.customers_create email (customer_name user email)
                                                         [("userId", userId)] ;;
                     created <- Stripe.subscriptions_create
                                  (cus_id customer) (plan_name plan)
                                  (unit_amount_of (plan_price plan)) ;;
                     let subscription := fst created in
                     Storage.updateUserStripeInfo userId (cus_id customer)
                                                  (sub_id subscription) ;;;
                     Storage.updateUser userId
                       (mkUpdateUser None None (Some (Some planId))) ;;;
                     match snd created with
                     | None =>
                         throw (TypeError
                           "Cannot read properties of null (reading 'payment_intent')")
                     | Some invoice =>
                         match payment_intent invoice with
                         | None =>
                             throw (TypeError
                               "Cannot read properties of null (reading 'client_secret')")
                         | Some paymentIntent =>
                             ret (json (SubscriptionSecret (sub_id subscription)
                                          (client_secret paymentIntent)))
                         end
                     end
                 end
             end
         end
     end)
    (fun error =>
       status_json 500 (Message ("Error creating subscription: " ++ message error))).

End CreateSubscription.

(** What [req.body] holds when the handler runs: nothing, [null], or the
    parsed object. *)
Inductive RequestBody : Type :=
| NoBody
| NullBody
| ObjectBody (body : SubscriptionBody).

(** The whole handler.  [const { planId } = req.body] stands inside the
    [try]: with no body, or a [null] one, the destructuring throws and the
    [catch] answers 500 before anything is read or written. *)
Definition create_subscription_route (unit_amount_of : string -> option Z)
           (userId : string) (request : RequestBody) : World -> Response * World :=
  match request with
  | ObjectBody body => create_subscription unit_amount_of userId body
  | NoBody =>
      handle
        (throw (TypeError
           "Cannot destructure property 'planId' of 'req.body' as it is undefined."))
        (fun error =>
           status_json 500 (Message ("Error creating subscription: " ++ message error)))
  | NullBody =>
      handle
        (throw (TypeError
           "Cannot destructure property 'planId' of 'req.body' as it is null."))
        (fun error =>
           status_json 500 (Message ("Error creating subscription: " ++ message error)))
  end.

(** *** POST /api/stripe-webhook *)

(** The handler sees the parsed body; the signature header travels with
    the request and is never read. *)
Record WebhookRequest : Type := mkWebhookRequest {
  signature_header : option string;
  req_body : JS.value
}.

Definition member (v : JS.value) (k : string) : M JS.value :=
  match JS.member v k with
  | Some x => ret x
  | None => throw (TypeError ("Cannot read properties of undefined or null: " ++ k))
  end.

(** [console.log(`Unhandled event type ${v}`)]: the output is not kept,
    the conversion may throw. *)
Definition log_unhandled (v : JS.value) : M unit :=
  if JS.toString_throws v
  then throw (TypeError "Cannot convert object to primitive value")
  else ret tt.

Definition stripe_webhook (req : WebhookRequest) : World -> Response * World :=
  handle
    (let payload := req_body req in
     let event := payload in
     kind <- member event "type" ;;
     (if JS.strict_eq_string kind "payment_intent.succeeded" then
        data <- member event "data" ;;
        paymentIntent <- member data "object" ;;
        ret tt
      else if JS.strict_eq_string kind "customer.subscription.updated" then
        data <- member event "data" ;;
        subscription <- member data "object" ;;
        ret tt
      else
        log_unhandled kind) ;;;
     ret (json Received))
    (fun _ => status_json 500 (Message "Webhook error")).

(** Deliveries handled one after the other. *)
Fixpoint deliver (reqs : list WebhookRequest) (w : World) : list Response * World :=
  match reqs with
  | [] => ([], w)
  | req :: rest =>
      let (r, w1) := stripe_webhook req w in
      let (rs, w2) := deliver rest w1 in
      (r :: rs, w2)
  end.

(** *** seedPlans *)

Definition double_quote : string := String (ascii_of_nat 34) EmptyString.

(** [JSON.stringify] of an array of strings that need no escaping. *)
Definition JSON_stringify (items : list string) : string :=
  "[" ++ String.concat "," (map (fun s => double_quote ++ s ++ double_quote) items) ++ "]".

Definition defaultPlans : list Plan :=
  [ mkPlan "starter" "Starter" "0.00"
      (JSON_stringify ["Up to $10,000 portfolio"; "Basic portfolio tracking";
                       "Monthly rebalancing"; "Email support"])
      (Some 10000%Z) "monthly" "0.0025" false false false false;
    mkPlan "professional" "Professional" "29.00"
      (JSON_stringify ["Up to $100,000 portfolio"; "Advanced analytics";
                       "Weekly rebalancing"; "Priority support"; "Tax optimization"])
      (Some 100000%Z) "weekly" "0.0020" true true false true;
    mkPlan "enterprise" "Enterprise" "99.00"
      (JSON_stringify ["Unlimited portfolio size"; "AI-powered insights";
                       "Daily rebalancing"; "Dedicated advisor"; "Custom strategies"])
      None "daily" "0.0015" true true true false ].

Definition seedPlans : M unit :=
  try_catch
    (existingPlans <- Storage.getPlans ;;
     if Nat.eqb (length existingPlans) 0
     then let plans_to_insert := defaultPlans in ret tt
     else ret tt)
    (fun _ => ret tt).

End Routes.

(** ** Events, requests and stores used in the statements below *)

Module Scenario.
Import Processor Routes.

(** A processor event: [{ id, type, created, data: { object } }]. *)
Definition stripe_event (id kind : string) (created : Z) (object : JS.value) : JS.value :=
  JS.Obj [("id", JS.Str id); ("type", JS.Str kind); ("created", JS.Num created);
          ("data", JS.Obj [("object", object)])].

Definition subscription_object (id status : string) : JS.value :=
  JS.Obj [("id", JS.Str id); ("status", JS.Str status)].

(** E1: t = 1, status active.  E2: t = 2, status past_due. *)
Definition E1 : WebhookRequest :=
  mkWebhookRequest (Some "t=1,v1=5a1f")
    (stripe_event "evt_1" "customer.subscription.updated" 1
                  (subscription_object "sub_1" "active")).

Definition E2 : WebhookRequest :=
  mkWebhookRequest (Some "t=2,v1=77c0")
    (stripe_event "evt_2" "customer.subscription.updated" 2
                  (subscription_object "sub_1" "past_due")).

(** A [payment_intent.succeeded] event for the payment [pay_1], delivered
    without any signature header. *)
Definition unsigned_delivery : WebhookRequest :=
  mkWebhookRequest None
    (stripe_event "evt_3" "payment_intent.succeeded" 3
                  (JS.Obj [("id", JS.Str "pay_1"); ("status", JS.Str "succeeded")])).

Definition professional : Plan :=
  mkPlan "professional" "Professional" "29.00" "[]" (Some 100000%Z) "weekly" "0.0020"
         true true false true.

Definition subscriber (email : option string) : User :=
  mkUser "u1" email (Some "Ada") (Some "Byron") (Some "cus_1") (Some "sub_1")
         (Some "professional") 5.

Definition newcomer : User :=
  mkUser "u2" None (Some "Grace") None None None None 6.

Definition prospect : User :=
  mkUser "u3" (Some "lin@example.org") None (Some "  Lin ") None None None 7.

Definition pending_payment : Payment :=
  mkPayment "pay_1" "u1" "29.00" "pending" 7 [("stripePaymentIntentId", "pi_1")].

Definition other_payment : Payment :=
  mkPayment "pay_2" "u2" "99.00" "pending" 8 [].

Definition processor_with_sub_1 : Processor.State :=
  mkState [mkCustomer "cus_1" "ada@example.org" "Ada Byron" [("userId", "u1")]]
          [mkSubscription "sub_1" "cus_1" "Professional" 2900 "incomplete" (Some "in_1")]
          [mkInvoice "in_1" (Some (mkPaymentIntent "pi_1" (Some "pi_1_secret")))]
          2.

(** One subscribed user [u1], one user [u2] without e-mail address or
    subscription, one user [u3] with an address and no subscription, one
    plan, two pending payments. *)
Definition world_with (email : option string) : World :=
  mkWorld (mkDB [subscriber email; newcomer; prospect] [professional] [] []
                [pending_payment; other_payment] 0)
          processor_with_sub_1 100.

Definition world_subscribed : World := world_with (Some "ada@example.org").

Definition world_subscribed_no_email : World := world_with None.

(** A stand-in for the price conversion on the prices of [defaultPlans]. *)
Definition cents (price : string) : option Z :=
  if String.eqb price "0.00" then Some 0%Z
  else if String.eqb price "29.00" then Some 2900%Z
  else if String.eqb price "99.00" then Some 9900%Z
  else None.

(** The effect the specification gives a [payment_intent.succeeded]
    event, to compare the handler with: the matching payment record is
    marked succeeded (the handler's own comment reads "Update payment
    status in database"), here through the storage layer's
    [updatePaymentStatus]. *)
Definition spec_mark_succeeded (paymentId : string) (w : World) : World :=
  snd (Storage.updatePaymentStatus paymentId "succeeded" w).

End Scenario.

(** ** Orderings and further stores used in the statements below *)

Module Cases.

(** The user [u1] holds the portfolio [pf_1], with two history entries
    recorded at times 10 and 20; the clock reads 100. *)
Definition world_with_history : World :=
  mkWorld (mkDB [Scenario.subscriber (Some "ada@example.org"); Scenario.prospect]
                [Scenario.professional]
                [mkPortfolio "pf_1" "u1" "1000.00" "1.0000" "50.00" 3]
                [mkPortfolioHistory "h_1" "pf_1" "900" 10;
                 mkPortfolioHistory "h_2" "pf_1" "1000" 20]
                [Scenario.pending_payment] 7)
          Scenario.processor_with_sub_1 100.


Definition cents (price : string) : option Z :=
  if String.eqb price "-5.00" then Some (-500)%Z else Scenario.cents price.


(** Names made of white space outside ASCII only: U+00A0 (bytes 194 160)
    and U+2003 (bytes 226 128 131). *)
Definition blank_names : User :=
  mkUser "u4" (Some "kim@example.org")
         (Some (String (ascii_of_nat 194) (String (ascii_of_nat 160) EmptyString)))
         (Some (String (ascii_of_nat 226)
                  (String (ascii_of_nat 128) (String (ascii_of_nat 131) EmptyString))))
         None None None 9.

End Cases.

(** [a] may come before [b] in an answer of [getPortfolioHistory]. *)
Definition newest_first (a b : PortfolioHistory) : Prop :=
  (ph_date b <= ph_date a)%Z.

(** The database after a request differs from the one before at most in
    the record of the user [userId]: the lookup of any other user, the keys
    of the users table, and the other tables are the same. *)
Definition only_user_touched (userId : string) (w w' : World) : Prop :=
  (forall other : string,
      other <> userId -> fst (Storage.getUser other w') = fst (Storage.getUser other w)) /\
  map user_id (users (db w')) = map user_id (users (db w)) /\
  plans (db w') = plans (db w) /\ portfolios (db w') = portfolios (db w) /\
  portfolioHistory (db w') = portfolioHistory (db w) /\
  payments (db w') = payments (db w) /\ id_seq (db w') = id_seq (db w).

(** * Properties *)

Import Routes.

(** ** The webhook handler *)

Lemma stripe_webhook_cases (req : WebhookRequest) (w : World) :
  stripe_webhook req w = (json Received, w) \/
  stripe_webhook req w = (status_json 500 (Message "Webhook error"), w).
Proof.
  unfold stripe_webhook, handle, bind, member, log_unhandled.
  destruct (JS.member (req_body req) "type") as [kind|]; cbn; [|now right].
  destruct (JS.strict_eq_string kind "payment_intent.succeeded").
  - destruct (JS.member (req_body req) "data") as [data|]; cbn; [|now right].
    destruct (JS.member data "object"); cbn; [now left | now right].
  - destruct (JS.strict_eq_string kind "customer.subscription.updated").
    + destruct (JS.member (req_body req) "data") as [data|]; cbn; [|now right].
      destruct (JS.member data "object"); cbn; [now left | now right].
    + destruct (JS.toString_throws kind); cbn; [now right | now left].
Qed.

Lemma stripe_webhook_frame (req : WebhookRequest) (w : World) :
  snd (stripe_webhook req w) = w.
Proof. destruct (stripe_webhook_cases req w) as [H|H]; rewrite H; reflexivity. Qed.

(** A well-formed processor event is acknowledged, whatever its type. *)
Lemma stripe_webhook_event (header : option string) (id kind : string) (created : Z)
      (object : JS.value) (w : World) :
  stripe_webhook (mkWebhookRequest header (Scenario.stripe_event id kind created object)) w
  = (json Received, w).
Proof.
  unfold stripe_webhook, handle, bind, Scenario.stripe_event. cbn.
  destruct (String.eqb kind "payment_intent.succeeded"); [reflexivity|].
  destruct (String.eqb kind "customer.subscription.updated"); reflexivity.
Qed.

Lemma deliver_frame (reqs : list WebhookRequest) (w : World) :
  snd (deliver reqs w) = w.
Proof.
  revert w. induction reqs as [|req rest IH]; intros w; cbn; [reflexivity|].
  pose proof (stripe_webhook_frame req w) as Hw.
  destruct (stripe_webhook req w) as [r w1]. cbn in Hw. subst w1.
  specialize (IH w). destruct (deliver rest w) as [rs w2]. exact IH.
Qed.

(** C7.  The webhook handler never persists anything: for every delivery,
    whatever the payload ([payment_intent.succeeded] and
    [customer.subscription.updated] events included, as well as payloads on
    which the handler throws and answers 500), the users, plans, portfolios,
    portfolio history and payments tables, the processor's objects (the
    subscriptions among them) and the clock are what they were. *)
Theorem stripe_webhook_persists_nothing (req : WebhookRequest) (w : World) :
  let w' := snd (stripe_webhook req w) in
  users (db w') = users (db w) /\
  payments (db w') = payments (db w) /\
  portfolios (db w') = portfolios (db w) /\
  portfolioHistory (db w') = portfolioHistory (db w) /\
  plans (db w') = plans (db w) /\
  Processor.subscriptions (stripe w') = Processor.subscriptions (stripe w) /\
  w' = w.
Proof.
  cbv zeta. rewrite stripe_webhook_frame. repeat split.
Qed.

(** C1, as the claim states it, fails: a [payment_intent.succeeded] event
    delivered with no signature header at all, which verifies under no
    secret, is answered 200 [{received: true}], not 400. *)
Lemma webhook_unsigned_delivery_accepted :
  signature_header Scenario.unsigned_delivery = None /\
  stripe_webhook Scenario.unsigned_delivery Scenario.world_subscribed
  = (json Received, Scenario.world_subscribed) /\
  res_status (fst (stripe_webhook Scenario.unsigned_delivery Scenario.world_subscribed))
  <> 400.
Proof.
  split; [reflexivity|]. split; [reflexivity|].
  cbn. discriminate.
Qed.

(** C1, amended.  The webhook handler does not read the signature header:
    a delivery is answered the same whatever the header holds (so also when
    the signature does not verify), with 200 [{received: true}] or, when the
    handler throws, with 500 and a message, never with 400; a well-formed
    processor event is answered 200.  In every case the event is not
    applied and the world, which is where a processed-event log would have
    to live, is left as it was. *)
Theorem webhook_signature_not_checked :
  (forall (req : WebhookRequest) (w : World),
      (forall header : option string,
          stripe_webhook (mkWebhookRequest header (req_body req)) w = stripe_webhook req w) /\
      (fst (stripe_webhook req w) = json Received \/
       fst (stripe_webhook req w) = status_json 500 (Message "Webhook error")) /\
      res_status (fst (stripe_webhook req w)) <> 400 /\
      snd (stripe_webhook req w) = w) /\
  (forall (header : option string) (id kind : string) (created : Z) (object : JS.value)
          (w : World),
      stripe_webhook (mkWebhookRequest header (Scenario.stripe_event id kind created object)) w
      = (json Received, w)).
Proof.
  split; [|exact stripe_webhook_event].
  intros req w.
  split; [intros header; destruct req; reflexivity|].
  split; [destruct (stripe_webhook_cases req w) as [H|H]; rewrite H; auto|].
  split; [|apply stripe_webhook_frame].
  destruct (stripe_webhook_cases req w) as [H|H]; rewrite H; cbn; discriminate.
Qed.

(** C2, as the claim states it, fails: the effect of an event is not
    applied once, it is never applied.  Applying the effect of the
    [payment_intent.succeeded] event for [pay_1] once marks that payment
    succeeded; after the event has been ingested twice the payment is
    still pending. *)
Lemma webhook_effect_never_applied :
  let w2 := snd (deliver [Scenario.unsigned_delivery; Scenario.unsigned_delivery]
                         Scenario.world_subscribed) in
  map pay_status (payments (db (Scenario.spec_mark_succeeded "pay_1" Scenario.world_subscribed)))
  = ["succeeded"; "pending"] /\
  map pay_status (payments (db w2)) = ["pending"; "pending"] /\
  w2 <> Scenario.spec_mark_succeeded "pay_1" Scenario.world_subscribed.
Proof.
  cbv zeta. split; [reflexivity|]. split; [reflexivity|].
  intros H. apply (f_equal (fun w => map pay_status (payments (db w)))) in H.
  vm_compute in H. discriminate.
Qed.

(** C2, amended.  Ingesting a webhook event with the same identifier twice
    applies its effect at most once, namely never: each of the two
    ingestions of a well-formed event returns success, 200
    [{received: true}], and the world after the second ingestion is the
    world after the first, which is the world before it.  For any payload
    at all, the second ingestion is answered as the first and changes
    nothing. *)
Theorem webhook_redelivery_changes_nothing :
  (forall (h1 h2 : option string) (id kind : string) (created : Z) (object : JS.value)
          (w : World),
      let event := Scenario.stripe_event id kind created object in
      deliver [mkWebhookRequest h1 event] w = ([json Received], w) /\
      deliver [mkWebhookRequest h1 event; mkWebhookRequest h2 event] w
      = ([json Received; json Received], w)) /\
  (forall (req : WebhookRequest) (w : World),
      let first := stripe_webhook req w in
      stripe_webhook req (snd first) = (fst first, snd first) /\ snd first = w).
Proof.
  split.
  - intros h1 h2 id kind created object w. cbv zeta. cbn [deliver].
    rewrite !stripe_webhook_event. split; reflexivity.
  - intros req w. cbv zeta. rewrite stripe_webhook_frame.
    split; [|reflexivity].
    destruct (stripe_webhook_cases req w) as [H|H]; rewrite H; reflexivity.
Qed.

(** C3, as the claim states it, fails.  Delivered in the order E2, E1,
    both events are acknowledged and the world stays as it was: the user
    record of [u1] still reads as before and nothing was written.  So there
    is no way of reading a subscription status off the stored state that is
    not constantly [past_due] and reads [past_due] after the two
    deliveries. *)
Lemma out_of_order_status_not_written :
  deliver [Scenario.E2; Scenario.E1] Scenario.world_subscribed
  = ([json Received; json Received], Scenario.world_subscribed) /\
  ~ (exists status_of : World -> string,
        (exists w0, status_of w0 <> "past_due") /\
        (forall w, status_of (snd (deliver [Scenario.E2; Scenario.E1] w)) = "past_due")).
Proof.
  split; [reflexivity|].
  intros [status_of [[w0 Hw0] Hall]].
  apply Hw0. rewrite <- (Hall w0). rewrite deliver_frame. reflexivity.
Qed.

(** C3, amended.  The webhook handler applies no event to any record,
    whatever the event's timestamp: no stale event is applied, and no newer
    one either.  Every delivery of a sequence gets its answer and the world
    after the sequence is the world before it.  In particular, for E1 (t=1,
    status active) and E2 (t=2, status past_due) delivered in the order E2,
    E1, both are acknowledged and whatever is read off the stored state as
    the subscription status is what it was before the deliveries. *)
Theorem webhook_applies_no_event :
  (forall (reqs : list WebhookRequest) (w : World),
      snd (deliver reqs w) = w /\ length (fst (deliver reqs w)) = length reqs) /\
  (forall (A : Type) (status_of : World -> A) (w : World),
      fst (deliver [Scenario.E2; Scenario.E1] w) = [json Received; json Received] /\
      status_of (snd (deliver [Scenario.E2; Scenario.E1] w)) = status_of w).
Proof.
  split.
  - intros reqs w. split; [apply deliver_frame|].
    revert w. induction reqs as [|req rest IH]; intros w; cbn; [reflexivity|].
    destruct (stripe_webhook req w) as [r w1]. specialize (IH w1).
    destruct (deliver rest w1) as [rs w2]. cbn in *. now rewrite IH.
  - intros A status_of w. rewrite deliver_frame. split; reflexivity.
Qed.

(** ** Subscription creation *)

Lemma subscriptions_retrieve_frame (id : string) (w : World) :
  snd (Stripe.subscriptions_retrieve id w) = w.
Proof.
  unfold Stripe.subscriptions_retrieve.
  destruct (find _ _); reflexivity.
Qed.

Lemma subscriptions_retrieve_id (id : string) (sub : Processor.Subscription) (w w' : World) :
  Stripe.subscriptions_retrieve id w = (Ok sub, w') -> Processor.sub_id sub = id.
Proof.
  unfold Stripe.subscriptions_retrieve.
  destruct (find _ _) as [s|] eqn:Hfind; [|discriminate].
  intros H. injection H as Hs _. subst s.
  apply find_some in Hfind. destruct Hfind as [_ Heq].
  now apply String.eqb_eq.
Qed.

Lemma invoices_retrieve_frame (id : option string) (w : World) :
  snd (Stripe.invoices_retrieve id w) = w.
Proof.
  unfold Stripe.invoices_retrieve.
  destruct id; [destruct (find _ _)|]; reflexivity.
Qed.

(** A user with a recorded subscription: whatever the request, nothing is
    created and nothing is written. *)
Lemma create_subscription_subscribed_frame (unit_amount_of : string -> option Z)
      (userId : string) (user : User) (sid : string) (body : SubscriptionBody) (w : World) :
  Storage.getUser userId w = (Ok (Some user), w) ->
  if_truthy (user_stripeSubscriptionId user) = Some sid ->
  snd (create_subscription unit_amount_of userId body w) = w.
Proof.
  intros Hu Hs. unfold create_subscription, handle, bind.
  destruct (if_truthy (planId body)) as [pid|]; [|reflexivity].
  rewrite Hu. unfold Storage.getPlan.
  destruct (hd_error _) as [plan|]; [|reflexivity].
  rewrite Hs.
  pose proof (subscriptions_retrieve_frame sid w) as H1.
  destruct (Stripe.subscriptions_retrieve sid w) as [[sub|e] w1]; cbn in H1; subst w1;
    [|reflexivity].
  pose proof (invoices_retrieve_frame (Processor.latest_invoice sub) w) as H2.
  destruct (Stripe.invoices_retrieve _ w) as [[inv|e] w2]; cbn in H2; subst w2; reflexivity.
Qed.

(** C4, as the claim states it, fails: the user [u1] has the subscription
    [sub_1] recorded, and a creation request that names a plan the store
    does not hold is answered 404, one that names no plan 400, neither with
    a subscription identifier. *)
Lemma existing_subscription_unknown_plan :
  Storage.getUser "u1" Scenario.world_subscribed
  = (Ok (Some (Scenario.subscriber (Some "ada@example.org"))), Scenario.world_subscribed) /\
  user_stripeSubscriptionId (Scenario.subscriber (Some "ada@example.org")) = Some "sub_1" /\
  create_subscription Scenario.cents "u1" (mkSubscriptionBody (Some "platinum"))
                      Scenario.world_subscribed
  = (status_json 404 (Message "Plan not found"), Scenario.world_subscribed) /\
  create_subscription Scenario.cents "u1" (mkSubscriptionBody None)
                      Scenario.world_subscribed
  = (status_json 400 (Message "Plan ID is required"), Scenario.world_subscribed).
Proof. repeat split. Qed.

(** C4, amended.  For every user who already has a subscription recorded (a
    non-empty subscription identifier on the user record), no call of
    subscription creation creates a processor customer or subscription
    object or writes anything, whatever the request.  When the request body
    names a plan of the store and the processor holds the recorded
    subscription and its latest invoice, the call returns the recorded
    subscriptionId with the client secret of that invoice's payment intent,
    and calling it a second time yields the same answer.  A request whose
    body names no plan is answered 400 "Plan ID is required", one that
    names a plan the store does not hold 404 "Plan not found", and one with
    no body, or a null body, 500. *)
Theorem existing_subscription_returned (unit_amount_of : string -> option Z)
        (userId : string) (user : User) (sid : string) (w : World) :
  Storage.getUser userId w = (Ok (Some user), w) ->
  if_truthy (user_stripeSubscriptionId user) = Some sid ->
  (forall request : RequestBody,
      snd (create_subscription_route unit_amount_of userId request w) = w) /\
  (forall (body : SubscriptionBody) (pid : string) (plan : Plan)
          (sub : Processor.Subscription) (inv : Processor.Invoice),
      if_truthy (planId body) = Some pid ->
      Storage.getPlan pid w = (Ok (Some plan), w) ->
      Stripe.subscriptions_retrieve sid w = (Ok sub, w) ->
      Stripe.invoices_retrieve (Processor.latest_invoice sub) w = (Ok inv, w) ->
      let answer :=
        json (SubscriptionSecret sid
                (match Processor.payment_intent inv with
                 | Some intent => Processor.client_secret intent
                 | None => None
                 end)) in
      create_subscription_route unit_amount_of userId (ObjectBody body) w = (answer, w) /\
      create_subscription_route unit_amount_of userId (ObjectBody body)
        (snd (create_subscription_route unit_amount_of userId (ObjectBody body) w))
      = (answer, w)) /\
  (forall body : SubscriptionBody,
      if_truthy (planId body) = None ->
      create_subscription_route unit_amount_of userId (ObjectBody body) w
      = (status_json 400 (Message "Plan ID is required"), w)) /\
  (forall (body : SubscriptionBody) (pid : string),
      if_truthy (planId body) = Some pid ->
      Storage.getPlan pid w = (Ok None, w) ->
      create_subscription_route unit_amount_of userId (ObjectBody body) w
      = (status_json 404 (Message "Plan not found"), w)) /\
  (forall request : RequestBody,
      request = NoBody \/ request = NullBody ->
      exists text : string,
        create_subscription_route unit_amount_of userId request w
        = (status_json 500 (Message ("Error creating subscription: " ++ text)), w)).
Proof.
  intros Hu Hs. split; [|split; [|split; [|split]]].
  - intros [| |body]; [reflexivity|reflexivity|].
    now apply create_subscription_subscribed_frame with user sid.
  - intros body pid plan sub inv Hpid Hplan Hsub Hinv answer.
    assert (Hcall : create_subscription unit_amount_of userId body w = (answer, w)).
    { unfold create_subscription, handle, bind.
      rewrite Hpid, Hu, Hplan, Hs, Hsub, Hinv.
      rewrite (subscriptions_retrieve_id sid sub w w Hsub). reflexivity. }
    cbn [create_subscription_route].
    split; [exact Hcall|]. rewrite Hcall. exact Hcall.
  - intros body Hpid. cbn [create_subscription_route].
    unfold create_subscription, handle. rewrite Hpid. reflexivity.
  - intros body pid Hpid Hplan. cbn [create_subscription_route].
    unfold create_subscription, handle, bind. rewrite Hpid, Hu, Hplan. reflexivity.
  - intros request [-> | ->]; eexists; reflexivity.
Qed.

Lemma existing_subscription_returned_witness :
  create_subscription_route Scenario.cents "u1"
    (ObjectBody (mkSubscriptionBody (Some "professional"))) Scenario.world_subscribed
  = (json (SubscriptionSecret "sub_1" (Some "pi_1_secret")), Scenario.world_subscribed) /\
  create_subscription_route Scenario.cents "u1"
    (ObjectBody (mkSubscriptionBody (Some "platinum"))) Scenario.world_subscribed
  = (status_json 404 (Message "Plan not found"), Scenario.world_subscribed) /\
  create_subscription_route Scenario.cents "u1"
    (ObjectBody (mkSubscriptionBody None)) Scenario.world_subscribed
  = (status_json 400 (Message "Plan ID is required"), Scenario.world_subscribed).
Proof.
  destruct (existing_subscription_returned
              Scenario.cents "u1" (Scenario.subscriber (Some "ada@example.org"))
              "sub_1" Scenario.world_subscribed eq_refl eq_refl)
    as (_ & Hreturned & Hrequired & Hunknown & _).
  split; [|split].
  - refine (proj1 (Hreturned (mkSubscriptionBody (Some "professional")) "professional"
                     Scenario.professional
                     (Processor.mkSubscription "sub_1" "cus_1" "Professional" 2900
                                               "incomplete" (Some "in_1"))
                     (Processor.mkInvoice "in_1"
                        (Some (Processor.mkPaymentIntent "pi_1" (Some "pi_1_secret"))))
                     _ _ _ _)); reflexivity.
  - exact (Hunknown (mkSubscriptionBody (Some "platinum")) "platinum" eq_refl eq_refl).
  - exact (Hrequired (mkSubscriptionBody None) eq_refl).
Defined.

(** C5, as the claim states it, fails: the requesting user does not exist
    in the store, and a creation request that carries no plan identifier is
    answered 400 "Plan ID is required", not 404. *)
Lemma unknown_user_without_plan_id :
  Storage.getUser "nobody" Scenario.world_subscribed = (Ok None, Scenario.world_subscribed) /\
  create_subscription Scenario.cents "nobody" (mkSubscriptionBody None)
                      Scenario.world_subscribed
  = (status_json 400 (Message "Plan ID is required"), Scenario.world_subscribed).
Proof. split; reflexivity. Qed.

(** C5, amended.  A subscription-creation request whose body names a plan
    fails with 404 and an error object [{message}] whenever the requesting
    user or the requested plan does not exist in the store: "User not
    found" when the user is missing, the plan being there or not, and
    "Plan not found" when the user exists and the plan is missing.  A
    request whose body names no plan fails with 400 "Plan ID is required"
    before either lookup, and a request with no body, or a null body, is
    answered 500.  In all these cases no processor object is created and no
    user record is updated: the world is left as it was. *)
Theorem missing_user_or_plan_not_found (unit_amount_of : string -> option Z)
        (userId : string) (w : World) :
  (forall (body : SubscriptionBody) (pid : string),
      if_truthy (planId body) = Some pid ->
      Storage.getUser userId w = (Ok None, w) ->
      create_subscription_route unit_amount_of userId (ObjectBody body) w
      = (status_json 404 (Message "User not found"), w)) /\
  (forall (body : SubscriptionBody) (pid : string) (user : User),
      if_truthy (planId body) = Some pid ->
      Storage.getUser userId w = (Ok (Some user), w) ->
      Storage.getPlan pid w = (Ok None, w) ->
      create_subscription_route unit_amount_of userId (ObjectBody body) w
      = (status_json 404 (Message "Plan not found"), w)) /\
  (forall body : SubscriptionBody,
      if_truthy (planId body) = None ->
      create_subscription_route unit_amount_of userId (ObjectBody body) w
      = (status_json 400 (Message "Plan ID is required"), w)) /\
  (forall request : RequestBody,
      request = NoBody \/ request = NullBody ->
      exists text : string,
        create_subscription_route unit_amount_of userId request w
        = (status_json 500 (Message ("Error creating subscription: " ++ text)), w)).
Proof.
  split; [|split; [|split]].
  - intros body pid Hpid Hu. cbn [create_subscription_route].
    unfold create_subscription, handle, bind. rewrite Hpid, Hu.
    unfold Storage.getPlan. reflexivity.
  - intros body pid user Hpid Hu Hp. cbn [create_subscription_route].
    unfold create_subscription, handle, bind. rewrite Hpid, Hu, Hp. reflexivity.
  - intros body Hpid. cbn [create_subscription_route].
    unfold create_subscription, handle. rewrite Hpid. reflexivity.
  - intros request [-> | ->]; eexists; reflexivity.
Qed.

Lemma missing_user_or_plan_not_found_witness :
  create_subscription_route Scenario.cents "nobody"
    (ObjectBody (mkSubscriptionBody (Some "professional"))) Scenario.world_subscribed
  = (status_json 404 (Message "User not found"), Scenario.world_subscribed) /\
  create_subscription_route Scenario.cents "u2"
    (ObjectBody (mkSubscriptionBody (Some "platinum"))) Scenario.world_subscribed
  = (status_json 404 (Message "Plan not found"), Scenario.world_subscribed) /\
  create_subscription_route Scenario.cents "nobody"
    (ObjectBody (mkSubscriptionBody (Some EmptyString))) Scenario.world_subscribed
  = (status_json 400 (Message "Plan ID is required"), Scenario.world_subscribed).
Proof.
  destruct (missing_user_or_plan_not_found Scenario.cents "nobody" Scenario.world_subscribed)
    as (Huser & _ & Hrequired & _).
  destruct (missing_user_or_plan_not_found Scenario.cents "u2" Scenario.world_subscribed)
    as (_ & Hplan & _).
  split; [|split].
  - exact (Huser (mkSubscriptionBody (Some "professional")) "professional" eq_refl eq_refl).
  - exact (Hplan (mkSubscriptionBody (Some "platinum")) "platinum" Scenario.newcomer
                 eq_refl eq_refl eq_refl).
  - exact (Hrequired (mkSubscriptionBody (Some EmptyString)) eq_refl).
Defined.

(** C6, as the claim states it, fails.  The existing user [u2] has no
    e-mail address on file, and a creation request that names a plan the
    store does not hold is answered 404, not 400.  The existing user [u1],
    once without an address on file but with the subscription [sub_1]
    recorded, is answered 200 with that subscription. *)
Lemma no_email_existing_subscription :
  Storage.getUser "u2" Scenario.world_subscribed
  = (Ok (Some Scenario.newcomer), Scenario.world_subscribed) /\
  user_email Scenario.newcomer = None /\
  create_subscription Scenario.cents "u2" (mkSubscriptionBody (Some "platinum"))
                      Scenario.world_subscribed
  = (status_json 404 (Message "Plan not found"), Scenario.world_subscribed) /\
  Storage.getUser "u1" Scenario.world_subscribed_no_email
  = (Ok (Some (Scenario.subscriber None)), Scenario.world_subscribed_no_email) /\
  user_email (Scenario.subscriber None) = None /\
  create_subscription Scenario.cents "u1" (mkSubscriptionBody (Some "professional"))
                      Scenario.world_subscribed_no_email
  = (json (SubscriptionSecret "sub_1" (Some "pi_1_secret")),
     Scenario.world_subscribed_no_email).
Proof. repeat split. Qed.

(** C6, amended.  For every existing user who has no contact address
    (e-mail) on file, subscription creation creates no processor object and
    writes nothing, whatever the request.  When the user has no
    subscription recorded and the request names a plan of the store, it
    fails with 400 "No user email on file". *)
Theorem no_email_rejected (unit_amount_of : string -> option Z)
        (userId : string) (user : User) (w : World) :
  Storage.getUser userId w = (Ok (Some user), w) ->
  if_truthy (user_email user) = None ->
  (forall body : SubscriptionBody,
      snd (create_subscription unit_amount_of userId body w) = w) /\
  (forall (body : SubscriptionBody) (pid : string) (plan : Plan),
      if_truthy (planId body) = Some pid ->
      Storage.getPlan pid w = (Ok (Some plan), w) ->
      if_truthy (user_stripeSubscriptionId user) = None ->
      create_subscription unit_amount_of userId body w
      = (status_json 400 (Message "No user email on file"), w)).
Proof.
  intros Hu Hemail. split.
  - intros body.
    destruct (if_truthy (user_stripeSubscriptionId user)) as [sid|] eqn:Hs.
    + now apply create_subscription_subscribed_frame with user sid.
    + unfold create_subscription, handle, bind.
      destruct (if_truthy (planId body)) as [pid|]; [|reflexivity].
      rewrite Hu. unfold Storage.getPlan.
      destruct (hd_error _) as [plan|]; [|reflexivity].
      rewrite Hs, Hemail. reflexivity.
  - intros body pid plan Hpid Hplan Hs.
    unfold create_subscription, handle, bind.
    rewrite Hpid, Hu, Hplan, Hs, Hemail. reflexivity.
Qed.

Lemma no_email_rejected_witness :
  create_subscription Scenario.cents "u2" (mkSubscriptionBody (Some "professional"))
                      Scenario.world_subscribed
  = (status_json 400 (Message "No user email on file"), Scenario.world_subscribed).
Proof.
  refine (proj2 (no_email_rejected Scenario.cents "u2" Scenario.newcomer
                   Scenario.world_subscribed _ _)
                (mkSubscriptionBody (Some "professional")) "professional"
                Scenario.professional _ _ _); reflexivity.
Defined.

(** The creating branch, run on the user [u3]: a customer, a subscription
    and its invoice are added at the processor and the user record takes
    their identifiers and the plan. *)
Example create_subscription_creates :
  let (r, w') := create_subscription Scenario.cents "u3"
                   (mkSubscriptionBody (Some "professional")) Scenario.world_subscribed in
  r = json (SubscriptionSecret "sub_3" (Some "pi_3_secret")) /\
  map Processor.cus_id (Processor.customers (stripe w')) = ["cus_1"; "cus_2"] /\
  map Processor.cus_name (Processor.customers (stripe w')) = ["Ada Byron"; "Lin"] /\
  map Processor.sub_id (Processor.subscriptions (stripe w')) = ["sub_1"; "sub_3"] /\
  map user_stripeSubscriptionId (users (db w')) = [Some "sub_1"; None; Some "sub_3"] /\
  map user_currentPlan (users (db w')) = [Some "professional"; None; Some "professional"].
Proof. vm_compute. repeat split. Qed.

(** ** seedPlans *)

(** C8.  [seedPlans] never writes: for every initial state of the plan
    store (empty, where the default plans are built and dropped, or not) it
    returns normally and leaves the stored plans, and the rest of the
    world, unchanged. *)
Theorem seedPlans_writes_nothing (w : World) :
  seedPlans w = (Ok tt, w) /\ plans (db (snd (seedPlans w))) = plans (db w).
Proof.
  assert (H : seedPlans w = (Ok tt, w)).
  { unfold seedPlans, try_catch, bind, Storage.getPlans.
    destruct (Nat.eqb (length (plans (db w))) 0); reflexivity. }
  rewrite H. split; reflexivity.
Qed.

(** ** updatePaymentStatus *)

Lemma updatePaymentStatus_no_match (id status : string) (rows : list Payment) :
  (forall p, In p rows -> pay_id p <> id) ->
  map (fun p => if String.eqb (pay_id p) id then Storage.set_status status p else p) rows
  = rows.
Proof.
  induction rows as [|p rest IH]; intros Hno; cbn; [reflexivity|].
  rewrite IH by (intros q Hq; apply Hno; now right).
  destruct (String.eqb_spec (pay_id p) id) as [Heq|Hne]; [|reflexivity].
  exfalso. apply (Hno p); [now left|exact Heq].
Qed.

Lemma filter_none {A} (f : A -> bool) (l : list A) :
  (forall x, In x l -> f x = false) -> filter f l = [].
Proof.
  induction l as [|x rest IH]; intros H; cbn; [reflexivity|].
  rewrite (H x) by now left. apply IH. intros y Hy. apply H. now right.
Qed.

(** C10.  [updatePaymentStatus id status] changes only the status column
    of the payment rows whose identifier is [id]: every row keeps its
    place and its identifier, user identifier, amount, creation time and
    remaining columns; a row with another identifier is untouched; the
    other tables, the processor and the clock are untouched.  When no
    payment has that identifier the result is [undefined] and nothing is
    modified. *)
Theorem updatePaymentStatus_changes_status_only (id status : string) (w : World) :
  exists result : option Payment,
    let w' := snd (Storage.updatePaymentStatus id status w) in
    fst (Storage.updatePaymentStatus id status w) = Ok result /\
    (users (db w') = users (db w) /\ plans (db w') = plans (db w) /\
     portfolios (db w') = portfolios (db w) /\
     portfolioHistory (db w') = portfolioHistory (db w) /\
     id_seq (db w') = id_seq (db w) /\ stripe w' = stripe w /\ clock w' = clock w) /\
    length (payments (db w')) = length (payments (db w)) /\
    (forall (i : nat) (p : Payment),
        nth_error (payments (db w)) i = Some p ->
        exists p' : Payment,
          nth_error (payments (db w')) i = Some p' /\
          pay_id p' = pay_id p /\ pay_userId p' = pay_userId p /\
          pay_amount p' = pay_amount p /\ pay_createdAt p' = pay_createdAt p /\
          pay_columns p' = pay_columns p /\
          (pay_id p = id -> pay_status p' = status) /\
          (pay_id p <> id -> p' = p)) /\
    (forall p' : Payment, result = Some p' -> pay_id p' = id /\ pay_status p' = status) /\
    ((forall p, In p (payments (db w)) -> pay_id p <> id) -> result = None /\ w' = w).
Proof.
  unfold Storage.updatePaymentStatus. cbn.
  eexists. split; [reflexivity|].
  split; [repeat split|].
  split; [apply length_map|].
  split; [|split].
  - intros i p Hi.
    exists (if String.eqb (pay_id p) id then Storage.set_status status p else p).
    split; [rewrite nth_error_map, Hi; reflexivity|].
    destruct (String.eqb_spec (pay_id p) id) as [Heq|Hne]; cbn;
      repeat split; try reflexivity; intros; congruence.
  - intros p' Hp'.
    destruct (filter _ _) as [|q rest] eqn:Hf; [discriminate|].
    injection Hp' as ->.
    assert (Hin : In p' (p' :: rest)) by now left.
    rewrite <- Hf in Hin. apply filter_In in Hin. destruct Hin as [Hin Hq].
    apply String.eqb_eq in Hq. split; [exact Hq|].
    apply in_map_iff in Hin. destruct Hin as [p [Hp _]].
    destruct (String.eqb (pay_id p) id) eqn:Hpid.
    + subst p'. reflexivity.
    + subst p'. apply String.eqb_neq in Hpid. contradiction.
  - intros Hno. rewrite (updatePaymentStatus_no_match id status _ Hno).
    rewrite filter_none.
    + split; [reflexivity|]. destruct w as [[] ? ?]. reflexivity.
    + intros p Hp. apply String.eqb_neq. now apply Hno.
Qed.

Lemma updatePaymentStatus_changes_status_only_witness :
  fst (Storage.updatePaymentStatus "pay_9" "succeeded" Scenario.world_subscribed) = Ok None /\
  snd (Storage.updatePaymentStatus "pay_9" "succeeded" Scenario.world_subscribed)
  = Scenario.world_subscribed.
Proof.
  destruct (updatePaymentStatus_changes_status_only "pay_9" "succeeded"
              Scenario.world_subscribed) as [result [Hres [_ [_ [_ [_ Hnone]]]]]].
  rewrite Hres.
  assert (Hno : forall p, In p (payments (db Scenario.world_subscribed)) ->
                          pay_id p <> "pay_9").
  { intros p [<-|[<-|[]]]; discriminate. }
  destruct (Hnone Hno) as [-> Hw]. split; [reflexivity|exact Hw].
Defined.

(** ** GET /api/portfolio *)

(** What the sample-history loop leaves behind: one appended entry per
    index, in order, all for the given portfolio; nothing else moves but
    the key sequence and the clock. *)
Lemma sample_history_loop (portfolioId : string) (indices : list nat) (w : World) :
  exists (entries : list PortfolioHistory) (w' : World),
    for_each indices
      (fun i => Storage.addPortfolioHistory portfolioId (nth i values EmptyString) ;;; ret tt)
      w = (Ok tt, w') /\
    portfolioHistory (db w') = (portfolioHistory (db w) ++ entries)%list /\
    map ph_value entries = map (fun i => nth i values EmptyString) indices /\
    Forall (fun h => ph_portfolioId h = portfolioId) entries /\
    users (db w') = users (db w) /\ plans (db w') = plans (db w) /\
    portfolios (db w') = portfolios (db w) /\ payments (db w') = payments (db w) /\
    stripe w' = stripe w.
Proof.
  revert w. induction indices as [|i rest IH]; intros w.
  - exists [], w. cbn. rewrite app_nil_r. repeat split. constructor.
  - pose (h := mkPortfolioHistory (Storage.gen_id (id_seq (db w))) portfolioId
                                  (nth i values EmptyString) (clock w)).
    pose (w1 := mkWorld (mkDB (users (db w)) (plans (db w)) (portfolios (db w))
                              (portfolioHistory (db w) ++ [h])
                              (payments (db w)) (S (id_seq (db w))))
                        (stripe w) (clock w + 1)).
    destruct (IH w1) as [entries [w' [Hrun [Hh [Hv [Hp [Hu [Hpl [Hpf [Hpay Hs]]]]]]]]]].
    exists (h :: entries), w'.
    split; [exact Hrun|].
    split; [rewrite Hh; cbn [w1 db portfolioHistory]; rewrite <- app_assoc; reflexivity|].
    split; [cbn [map]; rewrite Hv; reflexivity|].
    split; [constructor; [reflexivity|exact Hp]|].
    repeat split; assumption.
Qed.

(** C9.  For a user with no portfolio, GET /api/portfolio creates one
    portfolio with the fixed demo values (totalValue 124567.00, totalReturn
    18.4000, monthlyDeposit 2500.00, activeInvestments 12) and appends
    exactly 10 sample history entries for it, with the sample values in
    order, before it reads the history back and responds; the users, plans
    and payments tables and the processor are untouched.  For a user who
    already has a portfolio the request creates nothing and leaves the
    world as it was. *)
Theorem get_portfolio_first_request (userId : string) (w : World) :
  (Storage.getUserPortfolio userId w = (Ok None, w) ->
   let created :=
     mkPortfolio (Storage.gen_id (id_seq (db w))) userId
                 "124567.00" "18.4000" "2500.00" 12 in
   exists (entries history : list PortfolioHistory) (w' : World),
     get_portfolio userId w = (json (PortfolioView created history), w') /\
     Storage.getPortfolioHistory (pf_id created) 10 w' = (Ok history, w') /\
     portfolios (db w') = (portfolios (db w) ++ [created])%list /\
     portfolioHistory (db w') = (portfolioHistory (db w) ++ entries)%list /\
     length entries = 10 /\
     map ph_value entries = values /\
     Forall (fun h => ph_portfolioId h = pf_id created) entries /\
     users (db w') = users (db w) /\ plans (db w') = plans (db w) /\
     payments (db w') = payments (db w) /\ stripe w' = stripe w) /\
  (forall portfolio : Portfolio,
      Storage.getUserPortfolio userId w = (Ok (Some portfolio), w) ->
      exists history : list PortfolioHistory,
        get_portfolio userId w = (json (PortfolioView portfolio history), w) /\
        Storage.getPortfolioHistory (pf_id portfolio) 10 w = (Ok history, w)).
Proof.
  split.
  - intros Hnone created.
    pose (w1 := mkWorld (mkDB (users (db w)) (plans (db w))
                              (portfolios (db w) ++ [created])
                              (portfolioHistory (db w)) (payments (db w))
                              (S (id_seq (db w))))
                        (stripe w) (clock w)).
    destruct (sample_history_loop (pf_id created) (seq 0 (length dates)) w1)
      as [entries [w' [Hrun [Hh [Hv [Hp [Hu [Hpl [Hpf [Hpay Hs]]]]]]]]]].
    exists entries,
      (firstn 10 (Storage.order_desc
                    (filter (fun h => String.eqb (ph_portfolioId h) (pf_id created))
                            (portfolioHistory (db w'))))),
      w'.
    split.
    { unfold get_portfolio, handle. unfold bind at 1. rewrite Hnone.
      unfold bind at 1. unfold bind at 1.
      change (Storage.createPortfolio (default_portfolio userId) w) with (Ok created, w1).
      cbv beta iota. unfold bind at 1. fold w1. rewrite Hrun. reflexivity. }
    split; [reflexivity|].
    split; [rewrite Hpf; reflexivity|].
    split; [rewrite Hh; reflexivity|].
    split; [apply (f_equal (@length _)) in Hv; rewrite !length_map in Hv;
            rewrite Hv; reflexivity|].
    split; [rewrite Hv; reflexivity|].
    split; [exact Hp|].
    repeat split; assumption.
  - intros portfolio Hsome.
    eexists. split; [|reflexivity].
    unfold get_portfolio, handle, bind. rewrite Hsome. reflexivity.
Qed.

Lemma get_portfolio_first_request_witness :
  (exists (entries history : list PortfolioHistory) (w' : World),
      get_portfolio "u1" Scenario.world_subscribed
      = (json (PortfolioView (mkPortfolio "id_0" "u1" "124567.00" "18.4000" "2500.00" 12)
                             history), w') /\
      portfolioHistory (db w') = entries /\ length entries = 10) /\
  (exists history : list PortfolioHistory,
      let w1 := snd (get_portfolio "u1" Scenario.world_subscribed) in
      get_portfolio "u1" w1
      = (json (PortfolioView (mkPortfolio "id_0" "u1" "124567.00" "18.4000" "2500.00" 12)
                             history), w1)).
Proof.
  split.
  - destruct (proj1 (get_portfolio_first_request "u1" Scenario.world_subscribed) eq_refl)
      as [entries [history [w' [Hrun [_ [_ [Hh [Hlen _]]]]]]]].
    exists entries, history, w'. split; [exact Hrun|]. split; [exact Hh|exact Hlen].
  - cbv zeta.
    destruct (proj2 (get_portfolio_first_request "u1"
                       (snd (get_portfolio "u1" Scenario.world_subscribed)))
                    (mkPortfolio "id_0" "u1" "124567.00" "18.4000" "2500.00" 12) eq_refl)
      as [history [Hrun _]].
    exists history. exact Hrun.
Defined.

(** * Further properties of the storage layer and the handlers *)

(** ** Reading the portfolio history *)

Lemma insert_desc_perm (h : PortfolioHistory) (l : list PortfolioHistory) :
  Permutation (Storage.insert_desc h l) (h :: l).
Proof.
  induction l as [|x rest IH]; cbn; [reflexivity|].
  destruct (ph_date x <=? ph_date h)%Z; [reflexivity|].
  rewrite IH. apply perm_swap.
Qed.

Lemma order_desc_perm (l : list PortfolioHistory) :
  Permutation (Storage.order_desc l) l.
Proof.
  induction l as [|x rest IH]; cbn; [reflexivity|].
  rewrite insert_desc_perm. now constructor.
Qed.

Lemma insert_desc_sorted (h : PortfolioHistory) (l : list PortfolioHistory) :
  StronglySorted newest_first l -> StronglySorted newest_first (Storage.insert_desc h l).
Proof.
  induction 1 as [|x rest Hsorted IH Hall]; cbn.
  - repeat constructor.
  - destruct (Z.leb_spec (ph_date x) (ph_date h)) as [Hle|Hlt].
    + constructor; [now constructor|].
      constructor; [exact Hle|].
      eapply Forall_impl; [|exact Hall]. unfold newest_first. intros y Hy. lia.
    + constructor; [exact IH|].
      rewrite (insert_desc_perm h rest).
      constructor; [unfold newest_first; lia|exact Hall].
Qed.

Lemma order_desc_sorted (l : list PortfolioHistory) :
  StronglySorted newest_first (Storage.order_desc l).
Proof.
  induction l as [|x rest IH]; cbn; [constructor|].
  now apply insert_desc_sorted.
Qed.

Lemma sorted_app_order {A} (R : A -> A -> Prop) (l1 l2 : list A) :
  StronglySorted R (l1 ++ l2) ->
  StronglySorted R l1 /\ forall a b, In a l1 -> In b l2 -> R a b.
Proof.
  induction l1 as [|x rest IH]; cbn; intros Hs.
  - split; [constructor|]. intros a b [].
  - inversion Hs as [|? ? Hrest Hall]; subst.
    destruct (IH Hrest) as [Hs1 Hcross]. split.
    + constructor; [exact Hs1|].
      apply Forall_app in Hall. tauto.
    + intros a b [<-|Ha] Hb.
      * rewrite Forall_forall in Hall. apply Hall. apply in_or_app. now right.
      * now apply Hcross.
Qed.

(** X1.  [getPortfolioHistory] writes nothing and answers with at most
    [limit] entries, every one a stored entry of the asked portfolio, the
    newest first; a stored entry of that portfolio that is left out is not
    newer than any entry of the answer; and when the portfolio has no more
    than [limit] entries the answer holds them all. *)
Theorem getPortfolioHistory_newest_first (portfolioId : string) (limit : nat) (w : World) :
  exists history : list PortfolioHistory,
    Storage.getPortfolioHistory portfolioId limit w = (Ok history, w) /\
    length history <= limit /\
    StronglySorted newest_first history /\
    (forall h, In h history ->
               In h (portfolioHistory (db w)) /\ ph_portfolioId h = portfolioId) /\
    (forall x, In x (portfolioHistory (db w)) -> ph_portfolioId x = portfolioId ->
               In x history \/ forall h, In h history -> (ph_date x <= ph_date h)%Z) /\
    (length (filter (fun h => String.eqb (ph_portfolioId h) portfolioId)
                    (portfolioHistory (db w))) <= limit ->
     Permutation history
                 (filter (fun h => String.eqb (ph_portfolioId h) portfolioId)
                         (portfolioHistory (db w)))).
Proof.
  unfold Storage.getPortfolioHistory.
  set (mine := filter _ (portfolioHistory (db w))).
  set (sorted := Storage.order_desc mine).
  assert (Hsorted : StronglySorted newest_first sorted) by apply order_desc_sorted.
  assert (Hperm : Permutation sorted mine) by apply order_desc_perm.
  rewrite <- (firstn_skipn limit sorted) in Hsorted.
  apply sorted_app_order in Hsorted. destruct Hsorted as [Hfirst Hcross].
  exists (firstn limit sorted).
  split; [reflexivity|].
  split; [apply firstn_le_length|].
  split; [exact Hfirst|].
  split; [|split].
  - intros h Hh.
    assert (Hin : In h mine).
    { apply (Permutation_in _ Hperm).
      rewrite <- (firstn_skipn limit sorted). apply in_or_app. now left. }
    apply filter_In in Hin. destruct Hin as [Hin Heq].
    split; [exact Hin|]. now apply String.eqb_eq.
  - intros x Hx Hpid.
    assert (Hin : In x sorted).
    { apply (Permutation_in _ (Permutation_sym Hperm)).
      apply filter_In. split; [exact Hx|]. now apply String.eqb_eq. }
    rewrite <- (firstn_skipn limit sorted) in Hin.
    apply in_app_or in Hin. destruct Hin as [Hin|Hin]; [now left|].
    right. intros h Hh. exact (Hcross h x Hh Hin).
  - intros Hlen.
    rewrite firstn_all2; [exact Hperm|].
    rewrite (Permutation_length Hperm). exact Hlen.
Qed.




(** ** Portfolios *)

Lemma Ok_result_eq {A} (a b : A) (w w' : World) :
  (Ok a, w) = (Ok b, w') -> a = b.
Proof. intros H. now injection H. Qed.

Lemma hd_error_filter_none {A} (f : A -> bool) (l : list A) :
  hd_error (filter f l) = None -> filter f l = [].
Proof. destruct (filter f l); [reflexivity|discriminate]. Qed.

Lemma hd_error_app {A} (l1 l2 : list A) (x : A) :
  hd_error l1 = Some x -> hd_error (l1 ++ l2) = Some x.
Proof. destruct l1; [discriminate|]. intros H. exact H. Qed.

Lemma hd_error_filter_spec {A} (keep : A -> bool) (l : list A) :
  match hd_error (filter keep l) with
  | Some x => In x l /\ keep x = true
  | None => forall y, In y l -> keep y = false
  end.
Proof.
  induction l as [|x rest IH]; cbn; [intros y []|].
  destruct (keep x) eqn:Hx; cbn.
  - split; [now left|exact Hx].
  - destruct (hd_error (filter keep rest)) as [z|].
    + destruct IH as [Hin Hz]. split; [now right|exact Hz].
    + intros y [<-|Hy]; [exact Hx|now apply IH].
Qed.

(** X3.  [createPortfolio] adds exactly one row, with the given values
    under a generated key, and removes none.  For a user who had no
    portfolio, a following [getUserPortfolio] answers with the created
    one; for a user who had one, it still answers with a portfolio of that
    user; and the portfolios stored for any other user are the same as
    before. *)
Theorem createPortfolio_then_getUserPortfolio (portfolio : InsertPortfolio) (w : World) :
  exists (created : Portfolio) (w' : World),
    Storage.createPortfolio portfolio w = (Ok created, w') /\
    (pf_userId created = ins_userId portfolio /\
     pf_totalValue created = ins_totalValue portfolio /\
     pf_totalReturn created = ins_totalReturn portfolio /\
     pf_monthlyDeposit created = ins_monthlyDeposit portfolio /\
     pf_activeInvestments created = ins_activeInvestments portfolio) /\
    (forall p : Portfolio,
        In p (portfolios (db w')) <-> In p (portfolios (db w)) \/ p = created) /\
    length (portfolios (db w')) = S (length (portfolios (db w))) /\
    (fst (Storage.getUserPortfolio (ins_userId portfolio) w) = Ok None ->
     fst (Storage.getUserPortfolio (ins_userId portfolio) w') = Ok (Some created)) /\
    (forall older : Portfolio,
        fst (Storage.getUserPortfolio (ins_userId portfolio) w) = Ok (Some older) ->
        exists p : Portfolio,
          fst (Storage.getUserPortfolio (ins_userId portfolio) w') = Ok (Some p) /\
          pf_userId p = ins_userId portfolio /\ In p (portfolios (db w'))) /\
    (forall (other : string) (p : Portfolio),
        other <> ins_userId portfolio ->
        (In p (portfolios (db w')) /\ pf_userId p = other <->
         In p (portfolios (db w)) /\ pf_userId p = other)).
Proof.
  eexists _, _. split; [reflexivity|].
  split; [repeat split|].
  cbn [fst snd db portfolios with_db].
  assert (Hrows : forall p,
             In p (portfolios (db w) ++
                   [mkPortfolio (Storage.gen_id (id_seq (db w))) (ins_userId portfolio)
                                (ins_totalValue portfolio) (ins_totalReturn portfolio)
                                (ins_monthlyDeposit portfolio)
                                (ins_activeInvestments portfolio)])
             <-> In p (portfolios (db w)) \/
                 p = mkPortfolio (Storage.gen_id (id_seq (db w))) (ins_userId portfolio)
                                 (ins_totalValue portfolio) (ins_totalReturn portfolio)
                                 (ins_monthlyDeposit portfolio)
                                 (ins_activeInvestments portfolio)).
  { intros p. rewrite in_app_iff. cbn [In]. split.
    - intros [H|[H|[]]]; [now left|right; now symmetry].
    - intros [H|H]; [now left|right; left; now symmetry]. }
  split; [exact Hrows|].
  split; [rewrite length_app; cbn [length]; lia|].
  unfold Storage.getUserPortfolio. cbn [fst snd db portfolios with_db].
  split; [|split].
  - intros Hnone. apply (f_equal (fun o => match o with Ok r => r | Throw _ => None end))
      in Hnone.
    apply hd_error_filter_none in Hnone.
    rewrite filter_app, Hnone. cbn. now rewrite String.eqb_refl.
  - intros older Hold.
    apply (f_equal (fun o => match o with Ok r => r | Throw _ => None end)) in Hold.
    rewrite filter_app. rewrite (hd_error_app _ _ _ Hold).
    exists older. split; [reflexivity|].
    pose proof (hd_error_filter_spec
                  (fun p => String.eqb (pf_userId p) (ins_userId portfolio))
                  (portfolios (db w))) as Hspec.
    rewrite Hold in Hspec. destruct Hspec as [Hin Hkey].
    split; [now apply String.eqb_eq|]. apply in_or_app. now left.
  - intros other p Hother. rewrite Hrows. split.
    + intros [[Hin|Heq] Hp]; [now split|]. subst p. cbn in Hp. congruence.
    + intros [Hin Hp]. split; [now left|exact Hp].
Qed.

Lemma createPortfolio_then_getUserPortfolio_witness :
  exists w' : World,
    snd (Storage.createPortfolio (default_portfolio "u2") Scenario.world_subscribed) = w' /\
    fst (Storage.getUserPortfolio "u2" w')
    = Ok (Some (mkPortfolio "id_0" "u2" "124567.00" "18.4000" "2500.00" 12)).
Proof.
  destruct (createPortfolio_then_getUserPortfolio (default_portfolio "u2")
              Scenario.world_subscribed)
    as (created & w' & Hrun & _ & _ & _ & Hfresh & _).
  exists w'. split; [now rewrite Hrun|].
  pose proof (Hfresh eq_refl) as Hfound.
  cbn [ins_userId default_portfolio] in Hfound. rewrite Hfound.
  injection Hrun as <- _. reflexivity.
Defined.

(** The request of a user who has a portfolio: a pure read. *)
Lemma get_portfolio_existing (userId : string) (portfolio : Portfolio) (w : World) :
  Storage.getUserPortfolio userId w = (Ok (Some portfolio), w) ->
  exists history : list PortfolioHistory,
    Storage.getPortfolioHistory (pf_id portfolio) 10 w = (Ok history, w) /\
    get_portfolio userId w = (json (PortfolioView portfolio history), w).
Proof.
  intros Hsome. eexists. split; [reflexivity|].
  unfold get_portfolio, handle, bind. rewrite Hsome. reflexivity.
Qed.

(** The request of a user who has none: one portfolio and the sample
    entries are appended, then the history is read back. *)
Lemma get_portfolio_fresh (userId : string) (w : World) :
  Storage.getUserPortfolio userId w = (Ok None, w) ->
  let created :=
    mkPortfolio (Storage.gen_id (id_seq (db w))) userId
                "124567.00" "18.4000" "2500.00" 12 in
  exists (entries history : list PortfolioHistory) (w' : World),
    get_portfolio userId w = (json (PortfolioView created history), w') /\
    Storage.getPortfolioHistory (pf_id created) 10 w' = (Ok history, w') /\
    portfolios (db w') = (portfolios (db w) ++ [created])%list /\
    portfolioHistory (db w') = (portfolioHistory (db w) ++ entries)%list /\
    map ph_value entries = values /\
    Forall (fun h => ph_portfolioId h = pf_id created) entries.
Proof.
  intros Hnone created.
  pose (w1 := mkWorld (mkDB (users (db w)) (plans (db w))
                            (portfolios (db w) ++ [created])
                            (portfolioHistory (db w)) (payments (db w))
                            (S (id_seq (db w))))
                      (stripe w) (clock w)).
  destruct (sample_history_loop (pf_id created) (seq 0 (length dates)) w1)
    as [entries [w' [Hrun [Hh [Hv [Hp [_ [_ [Hpf _]]]]]]]]].
  exists entries,
    (firstn 10 (Storage.order_desc
                  (filter (fun h => String.eqb (ph_portfolioId h) (pf_id created))
                          (portfolioHistory (db w'))))),
    w'.
  split.
  { unfold get_portfolio, handle. unfold bind at 1. rewrite Hnone.
    unfold bind at 1. unfold bind at 1.
    change (Storage.createPortfolio (default_portfolio userId) w) with (Ok created, w1).
    cbv beta iota. unfold bind at 1. fold w1. rewrite Hrun. reflexivity. }
  split; [reflexivity|].
  split; [rewrite Hpf; reflexivity|].
  split; [rewrite Hh; reflexivity|].
  split; [rewrite Hv; reflexivity|exact Hp].
Qed.

(** X4.  GET /api/portfolio seeds at most once: whatever the world, the
    request answers 200 with a portfolio of the requesting user, and the
    same request repeated right after gets the same answer and changes
    nothing. *)
Theorem get_portfolio_seeds_once (userId : string) (w : World) :
  (exists (portfolio : Portfolio) (history : list PortfolioHistory),
      fst (get_portfolio userId w) = json (PortfolioView portfolio history) /\
      pf_userId portfolio = userId) /\
  get_portfolio userId (snd (get_portfolio userId w))
  = (fst (get_portfolio userId w), snd (get_portfolio userId w)).
Proof.
  destruct (hd_error (filter (fun p => String.eqb (pf_userId p) userId)
                             (portfolios (db w)))) as [portfolio|] eqn:Hlookup.
  - assert (Hsome : Storage.getUserPortfolio userId w = (Ok (Some portfolio), w))
      by (unfold Storage.getUserPortfolio; now rewrite Hlookup).
    destruct (get_portfolio_existing userId portfolio w Hsome) as [history [_ Hrun]].
    rewrite Hrun. cbn [fst snd]. split; [|exact Hrun].
    exists portfolio, history. split; [reflexivity|].
    destruct (filter _ (portfolios (db w))) as [|p rest] eqn:Hf; [discriminate|].
    injection Hlookup as ->.
    assert (Hin : In portfolio (portfolio :: rest)) by now left.
    rewrite <- Hf in Hin. apply filter_In in Hin. now apply String.eqb_eq.
  - assert (Hnone : Storage.getUserPortfolio userId w = (Ok None, w))
      by (unfold Storage.getUserPortfolio; now rewrite Hlookup).
    destruct (get_portfolio_fresh userId w Hnone)
      as [entries [history [w' [Hrun [Hread [Hpf _]]]]]].
    rewrite Hrun. cbn [fst snd]. split; [now eexists _, _|].
    assert (Hsome : Storage.getUserPortfolio userId w'
                    = (Ok (Some (mkPortfolio (Storage.gen_id (id_seq (db w))) userId
                                             "124567.00" "18.4000" "2500.00" 12)), w')).
    { unfold Storage.getUserPortfolio. rewrite Hpf, filter_app.
      rewrite (hd_error_filter_none _ _ Hlookup). cbn. now rewrite String.eqb_refl. }
    destruct (get_portfolio_existing userId _ w' Hsome) as [history' [Hread' Hrun']].
    rewrite Hrun'. rewrite Hread in Hread'. now injection Hread' as <-.
Qed.

(** X5.  The first answer shows the sample history.  For a user with no
    portfolio, and when no stored history entry already carries the key the
    new portfolio gets, GET /api/portfolio answers with exactly 10 history
    entries, newest first, whose values are the ten sample values. *)
Theorem get_portfolio_first_answer (userId : string) (w : World) :
  Storage.getUserPortfolio userId w = (Ok None, w) ->
  (forall h, In h (portfolioHistory (db w)) ->
             ph_portfolioId h <> Storage.gen_id (id_seq (db w))) ->
  exists (portfolio : Portfolio) (history : list PortfolioHistory),
    fst (get_portfolio userId w) = json (PortfolioView portfolio history) /\
    length history = 10 /\
    Permutation (map ph_value history) values /\
    StronglySorted newest_first history.
Proof.
  intros Hnone Hfresh.
  destruct (get_portfolio_fresh userId w Hnone)
    as [entries [history [w' [Hrun [Hread [_ [Hh [Hv Hp]]]]]]]].
  rewrite Hrun. eexists _, history. split; [reflexivity|].
  unfold Storage.getPortfolioHistory in Hread. apply Ok_result_eq in Hread.
  rewrite Hh, filter_app in Hread.
  rewrite (filter_none _ (portfolioHistory (db w))) in Hread.
  2:{ intros h Hin. apply String.eqb_neq. now apply Hfresh. }
  assert (Hmine : filter (fun h => String.eqb (ph_portfolioId h)
                                     (Storage.gen_id (id_seq (db w)))) entries = entries).
  { clear - Hp. induction Hp as [|h rest Hh _ IH]; [reflexivity|].
    cbn [filter]. cbn [pf_id] in Hh. rewrite Hh, String.eqb_refl. now rewrite IH. }
  cbn [pf_id app] in Hread. rewrite Hmine in Hread.
  assert (Hlen : length entries = 10).
  { apply (f_equal (@length _)) in Hv. now rewrite length_map in Hv. }
  rewrite firstn_all2 in Hread
    by (rewrite (Permutation_length (order_desc_perm entries)), Hlen; constructor).
  subst history.
  split; [now rewrite (Permutation_length (order_desc_perm entries))|].
  split; [|apply order_desc_sorted].
  rewrite <- Hv. apply Permutation_map. apply order_desc_perm.
Qed.

Lemma get_portfolio_first_answer_witness :
  exists (portfolio : Portfolio) (history : list PortfolioHistory),
    fst (get_portfolio "u3" Cases.world_with_history)
    = json (PortfolioView portfolio history) /\
    length history = 10.
Proof.
  destruct (get_portfolio_first_answer "u3" Cases.world_with_history eq_refl)
    as [portfolio [history [Hrun [Hlen _]]]].
  - intros h [<-|[<-|[]]] Heq; cbv in Heq; discriminate Heq.
  - exists portfolio, history. split; [exact Hrun|exact Hlen].
Defined.

(** ** Payments *)

Lemma filter_map_commute {A} (keep : A -> bool) (g : A -> A) (l : list A) :
  (forall x, keep (g x) = keep x) ->
  filter keep (map g l) = map g (filter keep l).
Proof.
  intros Hkeep. induction l as [|x rest IH]; cbn; [reflexivity|].
  rewrite Hkeep. destruct (keep x); cbn; now rewrite IH.
Qed.

(** X6.  Status updates compose and show in a user's payment list.  After
    [updatePaymentStatus id status], what [getPaymentsByUser] answers with
    for any user is, in whatever order, what it answered with before, with
    the status replaced on the payment [id] and every other payment as it
    was; and of two updates of the same payment the later one wins: the
    stored payments are those the later update alone leaves, and the
    payment it returns carries the later status. *)
Theorem updatePaymentStatus_then_list (id s1 s2 userId : string) (w : World) :
  (exists before after : list Payment,
      fst (Storage.getPaymentsByUser userId w) = Ok before /\
      fst (Storage.getPaymentsByUser userId (snd (Storage.updatePaymentStatus id s1 w)))
      = Ok after /\
      Permutation after
        (map (fun p => if String.eqb (pay_id p) id then Storage.set_status s1 p else p)
             before)) /\
  Permutation
    (payments (db (snd (Storage.updatePaymentStatus id s2
                          (snd (Storage.updatePaymentStatus id s1 w))))))
    (payments (db (snd (Storage.updatePaymentStatus id s2 w)))) /\
  (forall p : Payment,
      fst (Storage.updatePaymentStatus id s2 (snd (Storage.updatePaymentStatus id s1 w)))
      = Ok (Some p) ->
      pay_id p = id /\ pay_status p = s2).
Proof.
  assert (Htwice :
    Storage.updatePaymentStatus id s2 (snd (Storage.updatePaymentStatus id s1 w))
    = Storage.updatePaymentStatus id s2 w).
  { unfold Storage.updatePaymentStatus.
    cbn [fst snd db payments with_db Storage.set_payments users plans portfolios
         portfolioHistory id_seq stripe clock].
    rewrite map_map.
    assert (Hrows :
      map (fun p => if String.eqb
                         (pay_id (if String.eqb (pay_id p) id
                                  then Storage.set_status s1 p else p)) id
                    then Storage.set_status s2
                           (if String.eqb (pay_id p) id then Storage.set_status s1 p else p)
                    else if String.eqb (pay_id p) id then Storage.set_status s1 p else p)
          (payments (db w))
      = map (fun p => if String.eqb (pay_id p) id then Storage.set_status s2 p else p)
            (payments (db w))).
    { apply map_ext. intros p.
      destruct (String.eqb (pay_id p) id) eqn:Hp; cbn [Storage.set_status pay_id];
        rewrite Hp; reflexivity. }
    rewrite Hrows. reflexivity. }
  split; [|split].
  - eexists _, _. split; [reflexivity|]. split; [reflexivity|].
    unfold Storage.getPaymentsByUser, Storage.updatePaymentStatus.
    cbn [fst snd db payments with_db Storage.set_payments].
    rewrite filter_map_commute; [reflexivity|].
    intros p. destruct (String.eqb (pay_id p) id); reflexivity.
  - rewrite Htwice. reflexivity.
  - intros p. rewrite Htwice. unfold Storage.updatePaymentStatus. cbn [fst].
    intros Hp. apply (f_equal (fun o => match o with Ok r => r | Throw _ => None end)) in Hp.
    pose proof (hd_error_filter_spec
                  (fun q => String.eqb (pay_id q) id)
                  (map (fun q => if String.eqb (pay_id q) id
                                 then Storage.set_status s2 q else q)
                       (payments (db w)))) as Hspec.
    rewrite Hp in Hspec. destruct Hspec as [Hin Hkey].
    apply String.eqb_eq in Hkey. split; [exact Hkey|].
    apply in_map_iff in Hin. destruct Hin as (q & Hq & _).
    destruct (String.eqb (pay_id q) id) eqn:Hqid.
    + subst p. reflexivity.
    + subst p. apply String.eqb_neq in Hqid. contradiction.
Qed.

(** ** User records *)

Lemma update_users_lookup (id other : string) (f : User -> User) (l : list User) :
  (forall u, user_id (f u) = user_id u) ->
  hd_error (filter (Storage.has_id other)
                   (map (fun u => if Storage.has_id id u then f u else u) l))
  = if String.eqb other id
    then option_map f (hd_error (filter (Storage.has_id other) l))
    else hd_error (filter (Storage.has_id other) l).
Proof.
  intros Hid.
  rewrite filter_map_commute.
  2:{ intros u. unfold Storage.has_id. destruct (String.eqb (user_id u) id); [|reflexivity].
      now rewrite Hid. }
  destruct (filter (Storage.has_id other) l) as [|u rest] eqn:Hf.
  - now destruct (String.eqb other id).
  - assert (Hu : Storage.has_id other u = true).
    { assert (Hin : In u (u :: rest)) by now left.
      rewrite <- Hf in Hin. now apply filter_In in Hin. }
    unfold Storage.has_id in Hu. apply String.eqb_eq in Hu.
    cbn [map hd_error option_map]. unfold Storage.has_id at 1. rewrite Hu.
    rewrite (String.eqb_sym other id). now destruct (String.eqb id other).
Qed.

Lemma update_users_ids (id : string) (f : User -> User) (l : list User) :
  (forall u, user_id (f u) = user_id u) ->
  map user_id (map (fun u => if Storage.has_id id u then f u else u) l) = map user_id l.
Proof.
  intros Hid. rewrite map_map. apply map_ext. intros u.
  destruct (Storage.has_id id u); [apply Hid|reflexivity].
Qed.

(** What [update_users] does with a row-wise change that keeps the key. *)
Lemma update_users_effect (id : string) (f : User -> User) (w : World) :
  (forall u, user_id (f u) = user_id u) ->
  exists (result : option User) (w' : World),
    Storage.update_users id f w = (Ok result, w') /\
    Storage.getUser id w' = (Ok result, w') /\
    result = option_map f (hd_error (filter (Storage.has_id id) (users (db w)))) /\
    (forall other : string,
        other <> id -> fst (Storage.getUser other w') = fst (Storage.getUser other w)) /\
    (result = None -> w' = w) /\
    map user_id (users (db w')) = map user_id (users (db w)) /\
    plans (db w') = plans (db w) /\ portfolios (db w') = portfolios (db w) /\
    portfolioHistory (db w') = portfolioHistory (db w) /\
    payments (db w') = payments (db w) /\ id_seq (db w') = id_seq (db w) /\
    stripe w' = stripe w /\ clock w' = clock w.
Proof.
  intros Hid. eexists _, _. split; [reflexivity|].
  unfold Storage.getUser.
  cbn [fst snd db users with_db Storage.set_users plans portfolios portfolioHistory
       payments id_seq stripe clock].
  pose proof (update_users_lookup id id f (users (db w)) Hid) as Hsame.
  rewrite String.eqb_refl in Hsame.
  split; [reflexivity|]. split; [exact Hsame|].
  split; [|split; [|split; [now apply update_users_ids|repeat split]]].
  - intros other Hother.
    rewrite (update_users_lookup id other f (users (db w)) Hid).
    apply String.eqb_neq in Hother. now rewrite Hother.
  - rewrite Hsame. intros Hnone.
    destruct (hd_error (filter (Storage.has_id id) (users (db w)))) eqn:Hhd;
      [discriminate|].
    apply hd_error_filter_none in Hhd.
    assert (Hrows : map (fun u => if Storage.has_id id u then f u else u) (users (db w))
                    = users (db w)).
    { clear - Hhd. induction (users (db w)) as [|u rest IH]; [reflexivity|].
      cbn in Hhd |- *. destruct (Storage.has_id id u); [discriminate|].
      now rewrite (IH Hhd). }
    rewrite Hrows. destruct w as [[] ? ?]. reflexivity.
Qed.

(** X7.  [updateUserStripeInfo] records the two processor identifiers on
    the user [id] and nowhere else.  What it returns is what a following
    [getUser id] reads: the user as before with the customer and
    subscription identifiers set and the update time stamped, e-mail
    address, names and plan kept; [undefined], with the database untouched,
    when there is no such user.  No other user's record changes, no row is
    added, removed or re-keyed, and the other tables and the processor are
    left alone. *)
Theorem updateUserStripeInfo_then_getUser
        (id stripeCustomerId stripeSubscriptionId : string) (w : World) :
  exists (result : option User) (w' : World),
    Storage.updateUserStripeInfo id stripeCustomerId stripeSubscriptionId w
    = (Ok result, w') /\
    Storage.getUser id w' = (Ok result, w') /\
    (forall u : User,
        fst (Storage.getUser id w) = Ok (Some u) ->
        result = Some (mkUser (user_id u) (user_email u) (user_firstName u)
                              (user_lastName u) (Some stripeCustomerId)
                              (Some stripeSubscriptionId) (user_currentPlan u) (clock w))) /\
    (fst (Storage.getUser id w) = Ok None -> result = None /\ db w' = db w) /\
    (forall other : string,
        other <> id -> fst (Storage.getUser other w') = fst (Storage.getUser other w)) /\
    map user_id (users (db w')) = map user_id (users (db w)) /\
    plans (db w') = plans (db w) /\ portfolios (db w') = portfolios (db w) /\
    portfolioHistory (db w') = portfolioHistory (db w) /\
    payments (db w') = payments (db w) /\ stripe w' = stripe w.
Proof.
  set (f := fun u => mkUser (user_id u) (user_email u) (user_firstName u) (user_lastName u)
                            (Some stripeCustomerId) (Some stripeSubscriptionId)
                            (user_currentPlan u) (clock w)).
  destruct (update_users_effect id f (mkWorld (db w) (stripe w) (clock w + 1))
                                (fun u => eq_refl))
    as (result & w' & Hrun & Hget & Hres & Hother & Hnone
        & Hids & Hpl & Hpf & Hh & Hpay & _ & Hs & _).
  exists result, w'.
  split; [exact Hrun|]. split; [exact Hget|].
  cbn [db] in Hres. unfold Storage.getUser. cbn [fst].
  split; [|split].
  - intros u Hu. injection Hu as Hu. rewrite Hres, Hu. reflexivity.
  - intros Hu. injection Hu as Hu. rewrite Hu in Hres. cbn in Hres.
    split; [exact Hres|]. now rewrite (Hnone Hres).
  - split; [exact Hother|]. repeat split; assumption.
Qed.

(** X8.  [updateUser] changes, on the user [id] only, the fields the patch
    names and the update time; the e-mail address and the processor
    identifiers are kept.  What it returns is what a following [getUser id]
    reads, [undefined] with the database untouched when there is no such
    user, and no other user's record changes. *)
Theorem updateUser_then_getUser (id : string) (userData : UpdateUser) (w : World) :
  exists (result : option User) (w' : World),
    Storage.updateUser id userData w = (Ok result, w') /\
    Storage.getUser id w' = (Ok result, w') /\
    (forall u : User,
        fst (Storage.getUser id w) = Ok (Some u) ->
        exists u' : User,
          result = Some u' /\
          user_id u' = user_id u /\ user_email u' = user_email u /\
          user_stripeCustomerId u' = user_stripeCustomerId u /\
          user_stripeSubscriptionId u' = user_stripeSubscriptionId u /\
          user_updatedAt u' = clock w /\
          user_firstName u' = match set_firstName userData with
                              | Some v => v
                              | None => user_firstName u
                              end /\
          user_lastName u' = match set_lastName userData with
                             | Some v => v
                             | None => user_lastName u
                             end /\
          user_currentPlan u' = match set_currentPlan userData with
                                | Some v => v
                                | None => user_currentPlan u
                                end) /\
    (fst (Storage.getUser id w) = Ok None -> result = None /\ db w' = db w) /\
    (forall other : string,
        other <> id -> fst (Storage.getUser other w') = fst (Storage.getUser other w)) /\
    map user_id (users (db w')) = map user_id (users (db w)).
Proof.
  destruct (update_users_effect id (Storage.apply_UpdateUser userData (clock w))
                                (mkWorld (db w) (stripe w) (clock w + 1))
                                (fun u => eq_refl))
    as (result & w' & Hrun & Hget & Hres & Hother & Hnone & Hids & _).
  exists result, w'.
  split; [exact Hrun|]. split; [exact Hget|].
  cbn [db] in Hres. unfold Storage.getUser. cbn [fst].
  split; [|split].
  - intros u Hu. injection Hu as Hu. rewrite Hres, Hu.
    eexists. split; [reflexivity|]. repeat split.
  - intros Hu. injection Hu as Hu. rewrite Hu in Hres. cbn in Hres.
    split; [exact Hres|]. now rewrite (Hnone Hres).
  - split; [exact Hother|exact Hids].
Qed.

(** ** Creating a subscription *)

Lemma updateUserStripeInfo_effect (id c s : string) (w : World) :
  exists (result : option User) (w' : World),
    Storage.updateUserStripeInfo id c s w = (Ok result, w') /\
    Storage.getUser id w' = (Ok result, w') /\
    result = option_map
               (fun u => mkUser (user_id u) (user_email u) (user_firstName u)
                                (user_lastName u) (Some c) (Some s) (user_currentPlan u)
                                (clock w))
               (hd_error (filter (Storage.has_id id) (users (db w)))) /\
    (forall other : string,
        other <> id -> fst (Storage.getUser other w') = fst (Storage.getUser other w)) /\
    map user_id (users (db w')) = map user_id (users (db w)) /\
    plans (db w') = plans (db w) /\ portfolios (db w') = portfolios (db w) /\
    portfolioHistory (db w') = portfolioHistory (db w) /\
    payments (db w') = payments (db w) /\ id_seq (db w') = id_seq (db w) /\
    stripe w' = stripe w /\ clock w' = (clock w + 1)%Z.
Proof.
  destruct (update_users_effect id
              (fun u => mkUser (user_id u) (user_email u) (user_firstName u)
                               (user_lastName u) (Some c) (Some s) (user_currentPlan u)
                               (clock w))
              (mkWorld (db w) (stripe w) (clock w + 1)) (fun u => eq_refl))
    as (result & w' & Hrun & Hget & Hres & Hother & _ & Hrest).
  exists result, w'. split; [exact Hrun|]. split; [exact Hget|].
  split; [exact Hres|]. split; [exact Hother|exact Hrest].
Qed.

Lemma updateUser_effect (id : string) (userData : UpdateUser) (w : World) :
  exists (result : option User) (w' : World),
    Storage.updateUser id userData w = (Ok result, w') /\
    Storage.getUser id w' = (Ok result, w') /\
    result = option_map (Storage.apply_UpdateUser userData (clock w))
                        (hd_error (filter (Storage.has_id id) (users (db w)))) /\
    (forall other : string,
        other <> id -> fst (Storage.getUser other w') = fst (Storage.getUser other w)) /\
    map user_id (users (db w')) = map user_id (users (db w)) /\
    plans (db w') = plans (db w) /\ portfolios (db w') = portfolios (db w) /\
    portfolioHistory (db w') = portfolioHistory (db w) /\
    payments (db w') = payments (db w) /\ id_seq (db w') = id_seq (db w) /\
    stripe w' = stripe w /\ clock w' = (clock w + 1)%Z.
Proof.
  destruct (update_users_effect id (Storage.apply_UpdateUser userData (clock w))
              (mkWorld (db w) (stripe w) (clock w + 1)) (fun u => eq_refl))
    as (result & w' & Hrun & Hget & Hres & Hother & _ & Hrest).
  exists result, w'. split; [exact Hrun|]. split; [exact Hget|].
  split; [exact Hres|]. split; [exact Hother|exact Hrest].
Qed.

Lemma existsb_snoc {A} (f : A -> bool) (l : list A) (x : A) :
  f x = true -> existsb f (l ++ [x]) = true.
Proof. intros H. rewrite existsb_app. cbn. rewrite H. now rewrite orb_true_r. Qed.

(** The creating branch up to the processor's answer to
    [subscriptions.create], for a user with an address and no subscription
    and a plan of the store: the customer is created first. *)
Lemma create_subscription_creating (unit_amount_of : string -> option Z)
      (userId : string) (body : SubscriptionBody) (pid email : string)
      (user : User) (plan : Plan) (w : World) :
  if_truthy (planId body) = Some pid ->
  Storage.getUser userId w = (Ok (Some user), w) ->
  Storage.getPlan pid w = (Ok (Some plan), w) ->
  if_truthy (user_stripeSubscriptionId user) = None ->
  if_truthy (user_email user) = Some email ->
  let customer :=
    Processor.mkCustomer (Stripe.tag "cus_" (Processor.serial (stripe w))) email
                         (customer_name user email) [("userId", userId)] in
  let w1 :=
    with_stripe w (Processor.mkState (Processor.customers (stripe w) ++ [customer])
                                     (Processor.subscriptions (stripe w))
                                     (Processor.invoices (stripe w))
                                     (S (Processor.serial (stripe w)))) in
  create_subscription unit_amount_of userId body w
  = match Stripe.subscriptions_create (Processor.cus_id customer) (plan_name plan)
                                      (unit_amount_of (plan_price plan)) w1 with
    | (Throw e, w2) =>
        (status_json 500 (Message ("Error creating subscription: " ++ message e)), w2)
    | (Ok created, w2) =>
        let w3 :=
          snd (Storage.updateUser userId (mkUpdateUser None None (Some (Some pid)))
                 (snd (Storage.updateUserStripeInfo userId (Processor.cus_id customer)
                         (Processor.sub_id (fst created)) w2))) in
        match snd created with
        | Some (Processor.mkInvoice _ (Some intent)) =>
            (json (SubscriptionSecret (Processor.sub_id (fst created))
                                      (Processor.client_secret intent)), w3)
        | Some (Processor.mkInvoice _ None) =>
            (status_json 500
               (Message ("Error creating subscription: "
                         ++ "Cannot read properties of null (reading 'client_secret')")), w3)
        | None =>
            (status_json 500
               (Message ("Error creating subscription: "
                         ++ "Cannot read properties of null (reading 'payment_intent')")), w3)
        end
    end.
Proof.
  intros Hpid Hu Hplan Hsub Hemail customer w1.
  unfold create_subscription, handle. unfold bind at 1 2.
  rewrite Hpid, Hu, Hplan, Hsub, Hemail.
  unfold bind at 1.
  change (Stripe.customers_create email (customer_name user email) [("userId", userId)] w)
    with (Ok customer, w1).
  cbv beta iota. unfold bind at 1.
  destruct (Stripe.subscriptions_create (Processor.cus_id customer) (plan_name plan)
                                        (unit_amount_of (plan_price plan)) w1)
    as [[created|e] w2]; [|reflexivity].
  cbv beta iota zeta. unfold bind at 1.
  destruct (updateUserStripeInfo_effect userId (Processor.cus_id customer)
              (Processor.sub_id (fst created)) w2) as (r1 & w2' & Hrun1 & _).
  rewrite Hrun1. cbn [snd]. unfold bind at 1.
  destruct (updateUser_effect userId (mkUpdateUser None None (Some (Some pid))) w2')
    as (r2 & w3 & Hrun2 & _).
  rewrite Hrun2. cbn [snd].
  destruct (snd created) as [[inv_id [intent|]]|]; reflexivity.
Qed.

Lemma subscriptions_create_priced (customer product : string) (amount : Z) (w : World) :
  (0 < amount)%Z ->
  existsb (fun c => String.eqb (Processor.cus_id c) customer)
          (Processor.customers (stripe w)) = true ->
  let n := Processor.serial (stripe w) in
  let invoice :=
    Processor.mkInvoice (Stripe.tag "in_" n)
      (Some (Processor.mkPaymentIntent (Stripe.tag "pi_" n)
                                       (Some (Stripe.tag "pi_" n ++ "_secret")))) in
  let subscription :=
    Processor.mkSubscription (Stripe.tag "sub_" n) customer product amount "incomplete"
                             (Some (Stripe.tag "in_" n)) in
  Stripe.subscriptions_create customer product (Some amount) w
  = (Ok (subscription, Some invoice),
     with_stripe w (Processor.mkState (Processor.customers (stripe w))
                                      (Processor.subscriptions (stripe w) ++ [subscription])
                                      (Processor.invoices (stripe w) ++ [invoice])
                                      (S n))).
Proof.
  intros Hpos Hcus n invoice subscription.
  unfold Stripe.subscriptions_create.
  destruct (Z.ltb_spec amount 0) as [Hneg|_]; [lia|].
  rewrite Hcus. cbn [negb].
  destruct (Z.eqb_spec amount 0) as [Hzero|_]; [lia|].
  reflexivity.
Qed.

Lemma find_snoc_fresh {A} (f : A -> bool) (l : list A) (x : A) :
  (forall y, In y l -> f y = false) -> f x = true -> find f (l ++ [x]) = Some x.
Proof.
  intros Hfresh Hx. induction l as [|y rest IH]; cbn.
  - now rewrite Hx.
  - rewrite (Hfresh y) by now left. apply IH. intros z Hz. apply Hfresh. now right.
Qed.

Lemma tag_truthy (prefix : string) (c : ascii) (n : nat) :
  if_truthy (Some (Stripe.tag (String c prefix) n)) = Some (Stripe.tag (String c prefix) n).
Proof. reflexivity. Qed.

Lemma if_truthy_nonempty (s : option string) (t : string) :
  if_truthy s = Some t -> t <> EmptyString.
Proof.
  unfold if_truthy, JS.truthy. destruct s as [e|]; [|discriminate].
  destruct (String.eqb_spec e EmptyString) as [Hempty|Hfull]; cbn [negb];
    intros H; [discriminate H|]. now injection H as <-.
Qed.

(** The name sent to the processor is never empty, and is the e-mail
    address when the user has no first and no last name. *)
Lemma customer_name_fallback (user : User) (email : string) :
  (email <> EmptyString -> customer_name user email <> EmptyString) /\
  (if_truthy (user_firstName user) = None ->
   if_truthy (user_lastName user) = None ->
   customer_name user email = email).
Proof.
  unfold customer_name. split.
  - intros Hemail.
    destruct (String.eqb_spec
                (JS.trim (JS.or_else (user_firstName user) EmptyString ++ " "
                          ++ JS.or_else (user_lastName user) EmptyString))
                EmptyString) as [_|Hname]; assumption.
  - unfold if_truthy, JS.truthy, JS.or_else.
    destruct (user_firstName user) as [first|], (user_lastName user) as [last|];
      try destruct (String.eqb first EmptyString);
      try destruct (String.eqb last EmptyString);
      cbn [negb]; intros Hfirst Hlast; try discriminate Hfirst; try discriminate Hlast;
      reflexivity.
Qed.

(** Names that are blank, also when the white space is outside ASCII, give
    way to the e-mail address. *)
Example customer_name_blank :
  customer_name Cases.blank_names "kim@example.org" = "kim@example.org" /\
  customer_name Scenario.prospect "lin@example.org" = "Lin".
Proof. split; vm_compute; reflexivity. Qed.

(** X9.  A first subscription.  For a user of the store with an e-mail
    address and no subscription recorded, a request naming a plan of the
    store whose amount is positive is answered 200 with the new
    subscription's identifier and the client secret of its payment intent.
    The processor then holds one more customer (with the user's address, a
    name that falls back to the address, and the user's identifier as
    metadata) and one more subscription, incomplete, for that customer at
    the plan's name and amount.  The customer's name is the user's first
    and last name joined by a space and trimmed, or the address when that
    is empty: it is never empty, and it is the address when the user has
    neither name.  The user record carries the two new identifiers and the
    requested plan, with the e-mail address kept; no other user's record
    and no other table changes. *)
Theorem create_subscription_first (unit_amount_of : string -> option Z)
        (userId : string) (body : SubscriptionBody) (pid email : string)
        (user : User) (plan : Plan) (amount : Z) (w : World) :
  if_truthy (planId body) = Some pid ->
  Storage.getUser userId w = (Ok (Some user), w) ->
  Storage.getPlan pid w = (Ok (Some plan), w) ->
  if_truthy (user_stripeSubscriptionId user) = None ->
  if_truthy (user_email user) = Some email ->
  unit_amount_of (plan_price plan) = Some amount ->
  (0 < amount)%Z ->
  let n := Processor.serial (stripe w) in
  let cus := Stripe.tag "cus_" n in
  let sub := Stripe.tag "sub_" (S n) in
  exists (w' : World) (user' : User),
    create_subscription unit_amount_of userId body w
    = (json (SubscriptionSecret sub (Some (Stripe.tag "pi_" (S n) ++ "_secret"))), w') /\
    Processor.customers (stripe w')
    = (Processor.customers (stripe w)
       ++ [Processor.mkCustomer cus email (customer_name user email) [("userId", userId)]])%list /\
    customer_name user email <> EmptyString /\
    (if_truthy (user_firstName user) = None -> if_truthy (user_lastName user) = None ->
     customer_name user email = email) /\
    Processor.subscriptions (stripe w')
    = (Processor.subscriptions (stripe w)
       ++ [Processor.mkSubscription sub cus (plan_name plan) amount "incomplete"
                                    (Some (Stripe.tag "in_" (S n)))])%list /\
    Storage.getUser userId w' = (Ok (Some user'), w') /\
    user_stripeCustomerId user' = Some cus /\
    user_stripeSubscriptionId user' = Some sub /\
    user_currentPlan user' = Some pid /\
    user_email user' = user_email user /\
    (forall other : string,
        other <> userId -> fst (Storage.getUser other w') = fst (Storage.getUser other w)) /\
    map user_id (users (db w')) = map user_id (users (db w)) /\
    plans (db w') = plans (db w) /\ portfolios (db w') = portfolios (db w) /\
    portfolioHistory (db w') = portfolioHistory (db w) /\
    payments (db w') = payments (db w).
Proof.
  intros Hpid Hu Hplan Hsub Hemail Hamount Hpos n cus sub.
  rewrite (create_subscription_creating unit_amount_of userId body pid email user plan w
             Hpid Hu Hplan Hsub Hemail).
  cbv zeta. rewrite Hamount. cbn [Processor.cus_id].
  rewrite subscriptions_create_priced;
    [|exact Hpos|cbn [stripe with_stripe Processor.customers];
                 apply existsb_snoc; apply String.eqb_refl].
  cbn [stripe with_stripe Processor.serial Processor.customers Processor.subscriptions
       Processor.invoices fst snd Processor.sub_id Processor.client_secret].
  fold n. fold cus. fold sub.
  match goal with |- context [Storage.updateUserStripeInfo userId cus sub ?w2] =>
    destruct (updateUserStripeInfo_effect userId cus sub w2)
      as (r1 & w2' & Hrun1 & Hget1 & Hres1 & Hother1 & Hids1 & Hpl1 & Hpf1 & Hh1 & Hpay1
          & _ & Hs1 & _)
  end.
  rewrite Hrun1. cbn [snd].
  destruct (updateUser_effect userId (mkUpdateUser None None (Some (Some pid))) w2')
    as (r2 & w3 & Hrun2 & Hget2 & Hres2 & Hother2 & Hids2 & Hpl2 & Hpf2 & Hh2 & Hpay2
        & _ & Hs2 & _).
  rewrite Hrun2. cbn [snd].
  cbn [db with_stripe users] in Hres1.
  assert (Hlookup : hd_error (filter (Storage.has_id userId) (users (db w))) = Some user).
  { unfold Storage.getUser in Hu. now apply Ok_result_eq in Hu. }
  rewrite Hlookup in Hres1. cbn [option_map] in Hres1. subst r1.
  unfold Storage.getUser in Hget1. apply Ok_result_eq in Hget1.
  rewrite Hget1 in Hres2. cbn [option_map] in Hres2. subst r2.
  eexists w3, _.
  split; [reflexivity|].
  split; [rewrite Hs2, Hs1; reflexivity|].
  split; [apply customer_name_fallback; exact (if_truthy_nonempty _ _ Hemail)|].
  split; [apply customer_name_fallback|].
  split; [rewrite Hs2, Hs1; reflexivity|].
  split; [exact Hget2|].
  split; [reflexivity|]. split; [reflexivity|]. split; [reflexivity|].
  split; [reflexivity|].
  split; [intros other Hother; rewrite (Hother2 other Hother); exact (Hother1 other Hother)|].
  split; [rewrite Hids2; exact Hids1|].
  split; [rewrite Hpl2; exact Hpl1|].
  split; [rewrite Hpf2; exact Hpf1|].
  split; [rewrite Hh2; exact Hh1|].
  rewrite Hpay2; exact Hpay1.
Qed.

Lemma create_subscription_first_witness :
  exists w' : World,
    create_subscription Scenario.cents "u3" (mkSubscriptionBody (Some "professional"))
                        Scenario.world_subscribed
    = (json (SubscriptionSecret "sub_3" (Some "pi_3_secret")), w').
Proof.
  destruct (create_subscription_first Scenario.cents "u3"
              (mkSubscriptionBody (Some "professional")) "professional" "lin@example.org"
              Scenario.prospect Scenario.professional 2900 Scenario.world_subscribed
              eq_refl eq_refl eq_refl eq_refl eq_refl eq_refl eq_refl)
    as (w' & user' & Hrun & _).
  exists w'. exact Hrun.
Defined.

(** X10.  Asking again after a first subscription.  Under the conditions
    of a first subscription, and when the processor holds no older
    subscription or invoice under the identifiers it hands out, the same
    request repeated right after the first gets the same answer, the same
    subscriptionId and client secret, and changes nothing: no second
    customer or subscription is created. *)
Theorem create_subscription_again (unit_amount_of : string -> option Z)
        (userId : string) (body : SubscriptionBody) (pid email : string)
        (user : User) (plan : Plan) (amount : Z) (w : World) :
  if_truthy (planId body) = Some pid ->
  Storage.getUser userId w = (Ok (Some user), w) ->
  Storage.getPlan pid w = (Ok (Some plan), w) ->
  if_truthy (user_stripeSubscriptionId user) = None ->
  if_truthy (user_email user) = Some email ->
  unit_amount_of (plan_price plan) = Some amount ->
  (0 < amount)%Z ->
  (forall s, In s (Processor.subscriptions (stripe w)) ->
             Processor.sub_id s <> Stripe.tag "sub_" (S (Processor.serial (stripe w)))) ->
  (forall i, In i (Processor.invoices (stripe w)) ->
             Processor.inv_id i <> Stripe.tag "in_" (S (Processor.serial (stripe w)))) ->
  let first := create_subscription unit_amount_of userId body w in
  res_status (fst first) = 200 /\
  create_subscription unit_amount_of userId body (snd first) = first.
Proof.
  intros Hpid Hu Hplan Hsub Hemail Hamount Hpos Hfresh_sub Hfresh_inv first.
  (* the first call, step by step *)
  assert (Hfirst := create_subscription_creating unit_amount_of userId body pid email user
                      plan w Hpid Hu Hplan Hsub Hemail).
  cbv zeta in Hfirst. rewrite Hamount in Hfirst. cbn [Processor.cus_id] in Hfirst.
  rewrite subscriptions_create_priced in Hfirst;
    [|exact Hpos|cbn [stripe with_stripe Processor.customers];
                 apply existsb_snoc; apply String.eqb_refl].
  cbn [stripe with_stripe Processor.serial Processor.customers Processor.subscriptions
       Processor.invoices fst snd Processor.sub_id Processor.client_secret] in Hfirst.
  set (n := Processor.serial (stripe w)) in *.
  set (cus := Stripe.tag "cus_" n) in *.
  set (sub := Stripe.tag "sub_" (S n)) in *.
  set (inv := Stripe.tag "in_" (S n)) in *.
  match type of Hfirst with context [Storage.updateUserStripeInfo userId cus sub ?w2] =>
    destruct (updateUserStripeInfo_effect userId cus sub w2)
      as (r1 & w2' & Hrun1 & Hget1 & Hres1 & _ & _ & Hpl1 & _ & _ & _ & _ & Hs1 & _)
  end.
  rewrite Hrun1 in Hfirst. cbn [snd] in Hfirst.
  destruct (updateUser_effect userId (mkUpdateUser None None (Some (Some pid))) w2')
    as (r2 & w3 & Hrun2 & Hget2 & Hres2 & _ & _ & Hpl2 & _ & _ & _ & _ & Hs2 & _).
  rewrite Hrun2 in Hfirst. cbn [snd] in Hfirst.
  cbn [db with_stripe users] in Hres1.
  assert (Hlookup : hd_error (filter (Storage.has_id userId) (users (db w))) = Some user).
  { unfold Storage.getUser in Hu. now apply Ok_result_eq in Hu. }
  rewrite Hlookup in Hres1. cbn [option_map] in Hres1. subst r1.
  pose proof Hget1 as Hget1'. unfold Storage.getUser in Hget1'.
  apply Ok_result_eq in Hget1'.
  rewrite Hget1' in Hres2. cbn [option_map] in Hres2. subst r2.
  subst first. rewrite Hfirst. cbn [fst snd res_status json].
  split; [reflexivity|].
  (* the second call reads the recorded subscription back *)
  assert (Hplan3 : Storage.getPlan pid w3 = (Ok (Some plan), w3)).
  { unfold Storage.getPlan in Hplan |- *. apply Ok_result_eq in Hplan.
    rewrite Hpl2, Hpl1. cbn [db with_stripe]. now rewrite Hplan. }
  unfold create_subscription, handle. unfold bind at 1 2.
  rewrite Hpid, Hget2, Hplan3.
  cbn [user_stripeSubscriptionId Storage.apply_UpdateUser].
  unfold sub at 1. rewrite tag_truthy. fold sub.
  unfold bind at 1. unfold Stripe.subscriptions_retrieve.
  rewrite Hs2, Hs1. cbn [stripe with_stripe Processor.subscriptions].
  rewrite find_snoc_fresh;
    [|intros s Hs; apply String.eqb_neq; now apply Hfresh_sub
     |cbn [Processor.sub_id]; apply String.eqb_refl].
  unfold bind at 1. unfold Stripe.invoices_retrieve.
  cbn [Processor.latest_invoice].
  rewrite Hs2, Hs1. cbn [stripe with_stripe Processor.invoices].
  rewrite find_snoc_fresh;
    [|intros i Hi; apply String.eqb_neq; now apply Hfresh_inv
     |cbn [Processor.inv_id]; apply String.eqb_refl].
  reflexivity.
Qed.

Lemma create_subscription_again_witness :
  let first := create_subscription Scenario.cents "u3"
                 (mkSubscriptionBody (Some "professional")) Scenario.world_subscribed in
  fst first = json (SubscriptionSecret "sub_3" (Some "pi_3_secret")) /\
  create_subscription Scenario.cents "u3" (mkSubscriptionBody (Some "professional"))
                      (snd first) = first.
Proof.
  cbv zeta. split; [reflexivity|].
  refine (proj2 (create_subscription_again Scenario.cents "u3"
                   (mkSubscriptionBody (Some "professional")) "professional"
                   "lin@example.org" Scenario.prospect Scenario.professional 2900
                   Scenario.world_subscribed
                   eq_refl eq_refl eq_refl eq_refl eq_refl eq_refl eq_refl _ _)).
  - intros s [<-|[]] Heq. cbv in Heq. discriminate Heq.
  - intros i [<-|[]] Heq. cbv in Heq. discriminate Heq.
Defined.



Lemma subscriptions_create_frame (customer product : string) (unit_amount : option Z)
      (w : World) :
  db (snd (Stripe.subscriptions_create customer product unit_amount w)) = db w.
Proof.
  unfold Stripe.subscriptions_create.
  destruct unit_amount as [amount|]; [|reflexivity].
  destruct (amount <? 0)%Z; [reflexivity|].
  destruct (negb _); reflexivity.
Qed.

Lemma only_user_touched_refl (userId : string) (w : World) :
  only_user_touched userId w w.
Proof. repeat split. Qed.

Lemma only_user_touched_same_db (userId : string) (w w' : World) :
  db w' = db w -> only_user_touched userId w w'.
Proof.
  intros Hdb. unfold only_user_touched, Storage.getUser. rewrite Hdb. repeat split.
Qed.

Lemma only_user_touched_trans (userId : string) (w1 w2 w3 : World) :
  only_user_touched userId w1 w2 -> only_user_touched userId w2 w3 ->
  only_user_touched userId w1 w3.
Proof.
  intros (Ho1 & Hi1 & Hp1 & Hf1 & Hh1 & Hy1 & Hs1) (Ho2 & Hi2 & Hp2 & Hf2 & Hh2 & Hy2 & Hs2).
  repeat split; try congruence.
  intros other Hother. rewrite (Ho2 other Hother). now apply Ho1.
Qed.

(** Every way a subscription-creation request can end. *)
Lemma create_subscription_effect (unit_amount_of : string -> option Z)
      (userId : string) (body : SubscriptionBody) (w : World) :
  let r := fst (create_subscription unit_amount_of userId body w) in
  let w' := snd (create_subscription unit_amount_of userId body w) in
  ((res_status r = 400 \/ res_status r = 404) /\ w' = w \/
   (res_status r = 200 \/ res_status r = 500)) /\
  only_user_touched userId w w'.
Proof.
  cbv zeta.
  destruct (if_truthy (planId body)) as [pid|] eqn:Hpid.
  2:{ unfold create_subscription, handle. rewrite Hpid. cbn.
      split; [left; split; [now left|reflexivity]|apply only_user_touched_refl]. }
  destruct (hd_error (filter (Storage.has_id userId) (users (db w)))) as [user|] eqn:Huser.
  2:{ unfold create_subscription, handle, bind, Storage.getUser, Storage.getPlan.
      rewrite Hpid, Huser. cbn.
      split; [left; split; [now right|reflexivity]|apply only_user_touched_refl]. }
  assert (Hu : Storage.getUser userId w = (Ok (Some user), w))
    by (unfold Storage.getUser; now rewrite Huser).
  destruct (hd_error (filter (fun p => String.eqb (plan_id p) pid) (plans (db w))))
    as [plan|] eqn:Hplan_lookup.
  2:{ unfold create_subscription, handle, bind, Storage.getPlan.
      rewrite Hpid, Hu, Hplan_lookup. cbn.
      split; [left; split; [now right|reflexivity]|apply only_user_touched_refl]. }
  assert (Hplan : Storage.getPlan pid w = (Ok (Some plan), w))
    by (unfold Storage.getPlan; now rewrite Hplan_lookup).
  destruct (if_truthy (user_stripeSubscriptionId user)) as [sid|] eqn:Hsub.
  { rewrite (create_subscription_subscribed_frame unit_amount_of userId user sid body w Hu Hsub).
    split; [|apply only_user_touched_refl]. right.
    unfold create_subscription, handle, bind. rewrite Hpid, Hu, Hplan, Hsub.
    destruct (Stripe.subscriptions_retrieve sid w) as [[sub|e] w1]; [|now right].
    destruct (Stripe.invoices_retrieve _ w1) as [[inv|e] w2]; [now left|now right]. }
  destruct (if_truthy (user_email user)) as [email|] eqn:Hemail.
  2:{ unfold create_subscription, handle, bind.
      rewrite Hpid, Hu, Hplan, Hsub, Hemail. cbn.
      split; [left; split; [now left|reflexivity]|apply only_user_touched_refl]. }
  rewrite (create_subscription_creating unit_amount_of userId body pid email user plan w
             Hpid Hu Hplan Hsub Hemail).
  cbv zeta.
  match goal with |- context [Stripe.subscriptions_create ?c ?p ?a ?w1] =>
    pose proof (subscriptions_create_frame c p a w1) as Hframe;
    destruct (Stripe.subscriptions_create c p a w1) as [[created|e] w2]
  end; cbn [snd db with_stripe] in Hframe.
  2:{ cbn [fst snd]. split; [right; now right|].
      now apply only_user_touched_same_db. }
  assert (Htouched :
            only_user_touched userId w
              (snd (Storage.updateUser userId (mkUpdateUser None None (Some (Some pid)))
                      (snd (Storage.updateUserStripeInfo userId
                              (Stripe.tag "cus_" (Processor.serial (stripe w)))
                              (Processor.sub_id (fst created)) w2))))).
  { destruct (updateUserStripeInfo_effect userId
                (Stripe.tag "cus_" (Processor.serial (stripe w)))
                (Processor.sub_id (fst created)) w2)
      as (r1 & w2' & Hrun1 & _ & _ & Hother1 & Hids1 & Hpl1 & Hpf1 & Hh1 & Hpay1 & Hseq1 & _).
    rewrite Hrun1. cbn [snd].
    destruct (updateUser_effect userId (mkUpdateUser None None (Some (Some pid))) w2')
      as (r2 & w3 & Hrun2 & _ & _ & Hother2 & Hids2 & Hpl2 & Hpf2 & Hh2 & Hpay2 & Hseq2 & _).
    rewrite Hrun2. cbn [snd].
    apply only_user_touched_trans with w2; [now apply only_user_touched_same_db|].
    apply only_user_touched_trans with w2'; repeat split; assumption. }
  cbn [Processor.cus_id].
  destruct (snd created) as [[inv_id [intent|]]|]; cbn [fst snd];
    (split; [right; (now left) || (now right)|exact Htouched]).
Qed.

(** X12.  Subscription creation answers with one of four statuses, 200,
    400, 404 or 500, and an answer 400 or 404 (no plan named, unknown user
    or plan, no address on file) means that nothing was written: the
    database, the processor and the clock are as before the request. *)
Theorem create_subscription_statuses (unit_amount_of : string -> option Z)
        (userId : string) (body : SubscriptionBody) (w : World) :
  let r := fst (create_subscription unit_amount_of userId body w) in
  (res_status r = 200 \/ res_status r = 400 \/ res_status r = 404 \/ res_status r = 500) /\
  (res_status r = 400 \/ res_status r = 404 ->
   snd (create_subscription unit_amount_of userId body w) = w).
Proof.
  cbv zeta.
  destruct (create_subscription_effect unit_amount_of userId body w) as [Hcases _].
  cbv zeta in Hcases. destruct Hcases as [[Hstatus Hw]|Hstatus].
  - split; [tauto|]. intros _. exact Hw.
  - split; [tauto|]. intros [H|H]; destruct Hstatus as [H'|H']; rewrite H' in H;
      discriminate H.
Qed.

(** X13.  Whatever the request and however it ends, subscription creation
    touches the database in the record of the requesting user at most: the
    lookup of every other user gives what it gave before, no user row is
    added, removed or re-keyed, and the plans, portfolios, portfolio
    history and payments tables are unchanged. *)
Theorem create_subscription_touches_requester_only (unit_amount_of : string -> option Z)
        (userId : string) (body : SubscriptionBody) (w : World) :
  let w' := snd (create_subscription unit_amount_of userId body w) in
  (forall other : string,
      other <> userId -> fst (Storage.getUser other w') = fst (Storage.getUser other w)) /\
  map user_id (users (db w')) = map user_id (users (db w)) /\
  plans (db w') = plans (db w) /\ portfolios (db w') = portfolios (db w) /\
  portfolioHistory (db w') = portfolioHistory (db w) /\
  payments (db w') = payments (db w).
Proof.
  cbv zeta.
  destruct (create_subscription_effect unit_amount_of userId body w)
    as [_ (Hother & Hids & Hpl & Hpf & Hh & Hpay & _)].
  repeat split; assumption.
Qed.

(** X14.  The plans are never seeded.  On a store with no plan, [seedPlans]
    changes nothing and [getPlans] still lists no plan afterwards; so no
    subscription-creation request gets a subscription then, whoever asks
    and whatever plan is named: a request with a body is turned away with
    400 or 404, one with no body, or a null body, is answered 500, and
    none of them writes anything. *)
Theorem no_plans_no_subscription (w : World) :
  plans (db w) = [] ->
  let w0 := snd (seedPlans w) in
  w0 = w /\
  Storage.getPlans w0 = (Ok [], w0) /\
  forall (unit_amount_of : string -> option Z) (userId : string) (request : RequestBody),
    let r := fst (create_subscription_route unit_amount_of userId request w0) in
    match request with
    | ObjectBody _ => res_status r = 400 \/ res_status r = 404
    | NoBody | NullBody => res_status r = 500
    end /\
    snd (create_subscription_route unit_amount_of userId request w0) = w0.
Proof.
  intros Hempty.
  assert (Hseed : snd (seedPlans w) = w).
  { unfold seedPlans, try_catch, bind, Storage.getPlans.
    destruct (Nat.eqb (length (plans (db w))) 0); reflexivity. }
  cbv zeta. rewrite Hseed.
  split; [reflexivity|].
  split; [unfold Storage.getPlans; now rewrite Hempty|].
  intros unit_amount_of userId [| |body]; [split; reflexivity|split; reflexivity|].
  cbn [create_subscription_route].
  unfold create_subscription, handle, bind, Storage.getUser, Storage.getPlan.
  destruct (if_truthy (planId body)) as [pid|]; [|split; [now left|reflexivity]].
  cbv beta iota. rewrite Hempty. cbn [filter hd_error].
  destruct (hd_error _) as [user|]; split; try (now right); reflexivity.
Qed.

Lemma no_plans_no_subscription_witness :
  let w := mkWorld (mkDB [Scenario.prospect] [] [] [] [] 0) Scenario.processor_with_sub_1 0 in
  snd (seedPlans w) = w /\
  (res_status (fst (create_subscription_route Scenario.cents "u3"
                      (ObjectBody (mkSubscriptionBody (Some "starter")))
                      (snd (seedPlans w)))) = 400 \/
   res_status (fst (create_subscription_route Scenario.cents "u3"
                      (ObjectBody (mkSubscriptionBody (Some "starter")))
                      (snd (seedPlans w)))) = 404) /\
  res_status (fst (create_subscription_route Scenario.cents "u3" NoBody
                     (snd (seedPlans w)))) = 500.
Proof.
  cbv zeta.
  destruct (no_plans_no_subscription
              (mkWorld (mkDB [Scenario.prospect] [] [] [] [] 0)
                       Scenario.processor_with_sub_1 0) eq_refl)
    as (Hseed & _ & Hall).
  split; [exact Hseed|]. split.
  - exact (proj1 (Hall Scenario.cents "u3"
                       (ObjectBody (mkSubscriptionBody (Some "starter"))))).
  - exact (proj1 (Hall Scenario.cents "u3" NoBody)).
Defined.

(** ** Answers of the webhook handler *)

(** X15.  When the webhook handler answers 500.  A request with no body,
    or a [null] body, is answered 500.  An event of one of the two handled
    types, [payment_intent.succeeded] and [customer.subscription.updated],
    is answered 200 exactly when it carries a [data] property that is
    neither [null] nor [undefined], and 500 otherwise.  An object with any
    other string as its type, or with no type at all, and a body that is a
    boolean, a number, a string or an array, are answered 200. *)
Theorem stripe_webhook_answers (header : option string) (w : World) :
  let answer := fun payload => fst (stripe_webhook (mkWebhookRequest header payload) w) in
  let failure := status_json 500 (Message "Webhook error") in
  answer JS.Undefined = failure /\
  answer JS.Null = failure /\
  (forall (fields : list (string * JS.value)) (kind : string),
      JS.own "type" fields = Some (JS.Str kind) ->
      kind = "payment_intent.succeeded" \/ kind = "customer.subscription.updated" ->
      (answer (JS.Obj fields) = json Received <->
       exists data, JS.own "data" fields = Some data /\
                    data <> JS.Undefined /\ data <> JS.Null) /\
      (answer (JS.Obj fields) = json Received \/ answer (JS.Obj fields) = failure)) /\
  (forall (fields : list (string * JS.value)) (kind : string),
      JS.own "type" fields = Some (JS.Str kind) ->
      kind <> "payment_intent.succeeded" -> kind <> "customer.subscription.updated" ->
      answer (JS.Obj fields) = json Received) /\
  (forall fields : list (string * JS.value),
      JS.own "type" fields = None -> answer (JS.Obj fields) = json Received) /\
  (forall payload : JS.value,
      match payload with
      | JS.Boolean _ | JS.Num _ | JS.Str _ | JS.Arr _ => answer payload = json Received
      | _ => True
      end).
Proof.
  cbv zeta. unfold stripe_webhook, handle.
  split; [reflexivity|]. split; [reflexivity|].
  split; [|split; [|split]].
  - intros fields kind Htype Hkind.
    unfold bind, member. cbn [JS.member req_body]. rewrite Htype.
    unfold status_json, json.
    assert (Hpresent : forall data : JS.value,
               data <> JS.Undefined -> data <> JS.Null ->
               exists d, Some data = Some d /\ d <> JS.Undefined /\ d <> JS.Null)
      by (intros data Hu Hn; now exists data).
    assert (Habsent : forall data : JS.value,
               data = JS.Undefined \/ data = JS.Null ->
               ~ exists d, Some data = Some d /\ d <> JS.Undefined /\ d <> JS.Null).
    { intros data Hdata (d & Hd & Hu & Hn). injection Hd as <-. tauto. }
    destruct Hkind as [-> | ->]; cbn;
      (destruct (JS.own "data" fields) as [data|]; cbn;
       [destruct data as [| |b|n|s|elements|inner]; cbn;
        try (destruct (JS.own "object" inner); cbn);
        try (split; [split; [intros _; apply Hpresent; discriminate|intros _; reflexivity]
                    |left; reflexivity]);
        (split; [split; [intros H; discriminate H
                        |intros H; exfalso; revert H; apply Habsent; tauto]
                |right; reflexivity])
       |split;
        [split; [intros H; discriminate H|intros (d & Hd & _); discriminate Hd]
        |right; reflexivity]]).
  - intros fields kind Htype Hk1 Hk2.
    unfold bind, member, log_unhandled. cbn [JS.member req_body]. rewrite Htype.
    cbv [ret JS.strict_eq_string].
    apply String.eqb_neq in Hk1, Hk2. rewrite Hk1, Hk2. reflexivity.
  - intros fields Htype.
    unfold bind, member, log_unhandled. cbn [JS.member req_body]. rewrite Htype.
    reflexivity.
  - intros payload.
    destruct payload as [| |b|n|s|elements|fields]; try exact I; reflexivity.
Qed.

Lemma stripe_webhook_answers_witness :
  fst (stripe_webhook
         (mkWebhookRequest None
            (JS.Obj [("id", JS.Str "evt_9"); ("type", JS.Str "payment_intent.succeeded")]))
         Scenario.world_subscribed)
  = status_json 500 (Message "Webhook error") /\
  fst (stripe_webhook
         (mkWebhookRequest None
            (JS.Obj [("id", JS.Str "evt_9"); ("type", JS.Str "invoice.paid")]))
         Scenario.world_subscribed)
  = json Received.
Proof.
  destruct (stripe_webhook_answers None Scenario.world_subscribed)
    as (_ & _ & Hhandled & Hother & _).
  split.
  - destruct (Hhandled [("id", JS.Str "evt_9"); ("type", JS.Str "payment_intent.succeeded")]
                       "payment_intent.succeeded" eq_refl (or_introl eq_refl))
      as [Hiff [Hok|Hfail]]; [|exact Hfail].
    apply Hiff in Hok. destruct Hok as (data & Hdata & _). discriminate Hdata.
  - exact (Hother [("id", JS.Str "evt_9"); ("type", JS.Str "invoice.paid")] "invoice.paid"
                  eq_refl ltac:(discriminate) ltac:(discriminate)).
Defined.

(** ** Lookups by key *)

(** X16.  The three lookups by key, [getUser], [getPlan] and
    [getUserPortfolio], write nothing, answer with a stored row that
    carries the asked key, and answer [undefined] exactly when no stored
    row carries it. *)
Theorem lookups_by_key (key : string) (w : World) :
  (exists r, Storage.getUser key w = (Ok r, w) /\
             (forall u, r = Some u -> In u (users (db w)) /\ user_id u = key) /\
             (r = None <-> forall u, In u (users (db w)) -> user_id u <> key)) /\
  (exists r, Storage.getPlan key w = (Ok r, w) /\
             (forall p, r = Some p -> In p (plans (db w)) /\ plan_id p = key) /\
             (r = None <-> forall p, In p (plans (db w)) -> plan_id p <> key)) /\
  (exists r, Storage.getUserPortfolio key w = (Ok r, w) /\
             (forall p, r = Some p -> In p (portfolios (db w)) /\ pf_userId p = key) /\
             (r = None <-> forall p, In p (portfolios (db w)) -> pf_userId p <> key)).
Proof.
  unfold Storage.getUser, Storage.getPlan, Storage.getUserPortfolio, Storage.has_id.
  split; [|split]; eexists; (split; [reflexivity|]);
    match goal with |- context [hd_error (filter ?keep ?l)] =>
      pose proof (hd_error_filter_spec keep l) as Hspec;
      destruct (hd_error (filter keep l)) as [x|]
    end;
    (split;
     [intros y Hy;
      first [discriminate Hy
            |injection Hy as <-; destruct Hspec as [Hin Hkey];
             split; [exact Hin|now apply String.eqb_eq]]
     |split;
      [intros Hnone;
       first [discriminate Hnone
             |intros y Hy; apply String.eqb_neq; now apply Hspec]
      |intros Hall;
       first [reflexivity
             |destruct Hspec as [Hin Hkey]; apply String.eqb_eq in Hkey;
              exfalso; exact (Hall x Hin Hkey)]]]).
Qed.
